(** * Task-tracker client: API client, optimistic task update, export polling

    A shallow embedding of the client logic of the repository:

    - [Api]: [apiRequest] and [exportApi.download] of [services/api.ts];
    - [Cache]: the part of the query cache of the data-fetching library the
      project page talks to ([getQueryData], [setQueryData],
      [invalidateQueries], [cancelQueries]);
    - [TaskUpdate]: [updateTaskMutation] of [pages/ProjectDetailPage.tsx]
      ([onMutate], [onError], [onSettled]) and the life cycle the library
      drives it through;
    - [ExportWatch]: the polling loop armed by
      [createExportMutation.onSuccess], as a step function on the events of
      the single-threaded event loop;
    - [ProjectPage]: the status filter, the inline edit form and the task
      mutations of [pages/ProjectDetailPage.tsx];
    - [Dashboard]: the project mutations and [handleLogout] of
      [pages/DashboardPage.tsx];
    - [App]: the route table of [App.tsx] and its guard. *)

From Stdlib Require Import ZArith Lia Bool.
From stdpp Require Import gmap strings list fin_maps pretty.

#[local] Set Warnings "-register-all".
#[local] Open Scope string_scope.

(** ** JavaScript values seen by the client *)

Module Js.

Section Json.
(** JSON numbers are kept abstract: the client only asks whether one is
    falsy and how it prints. *)
Context {Number : Type}.
Variable number_is_zero : Number -> bool.
Variable number_to_string : Number -> string.

(** What [response.json()] can produce. *)
Inductive json :=
  | JNull
  | JBool (b : bool)
  | JNumber (n : Number)
  | JString (s : string)
  | JArray (items : list json)
  | JObject (props : gmap string json).

(** [v.k] for a property name [k] that no prototype defines ([error],
    [message], [data]): [None] is [undefined].  Reading a property of
    [null] throws and is handled by the callers. *)
Definition get_prop (v : json) (k : string) : option json :=
  match v with
  | JObject props => props !! k
  | _ => None
  end.

(** ToBoolean. *)
Definition truthy (v : json) : bool :=
  match v with
  | JNull => false
  | JBool b => b
  | JNumber n => negb (number_is_zero n)
  | JString s => negb (String.eqb s "")
  | JArray _ | JObject _ => true
  end.

(** ToString, as applied by [new Error(v)]; [None] when the conversion
    throws a [TypeError].  That happens for an object with a [toString]
    property of its own: JSON holds no functions, so that property is not
    callable, and [valueOf] gives back the object itself.  An array joins
    the strings of its items, [null] counting as the empty string. *)
Fixpoint to_string (v : json) : option string :=
  match v with
  | JNull => Some "null"
  | JBool true => Some "true"
  | JBool false => Some "false"
  | JNumber n => Some (number_to_string n)
  | JString s => Some s
  | JArray items =>
      (fix join (l : list json) : option string :=
         match l with
         | [] => Some ""
         | x :: rest =>
             match match x with JNull => Some "" | _ => to_string x end with
             | None => None
             | Some sx =>
                 match rest with
                 | [] => Some sx
                 | _ =>
                     match join rest with
                     | None => None
                     | Some srest => Some (sx ++ "," ++ srest)
                     end
                 end
             end
         end) items
  | JObject props =>
      match props !! "toString" with
      | Some _ => None
      | None => Some "[object Object]"
      end
  end.
End Json.

Arguments json : clear implicits.

(** Exceptions the client code can raise or let through. *)
Inductive exn :=
  | Error (message : string)        (* [new Error(message)] *)
  | TypeError (message : string)    (* network failure, property of null *)
  | SyntaxError.                    (* body is not JSON *)

(** Outcome of awaiting a promise. *)
Inductive outcome (T : Type) :=
  | Return (v : T)
  | Throw (e : exn).
Arguments Return {T} v.
Arguments Throw {T} e.

End Js.

(** ** services/api.ts *)

Module Api.
Import Js.

Definition API_BASE_URL : string := "http://localhost:5000/api".

(** [RequestInit], as far as the client fills it. *)
Record RequestInit := {
  method : option string;
  body : option string;
  headers : option (gmap string string);
}.

Definition no_options : RequestInit :=
  {| method := None; body := None; headers := None |}.

(** What is handed to [fetch]. *)
Record Request := {
  url : string;
  req_method : option string;
  req_body : option string;
  req_headers : gmap string string;
}.

Section Client.
Context {Number : Type}.
Variable number_is_zero : Number -> bool.
Variable number_to_string : Number -> string.

(** A received response: its [ok] flag and status, the raw payload
    [response.blob()] yields, and what [response.json()] yields ([None]
    when the payload is not JSON). *)
Record Response := {
  ok : bool;
  status : Z;
  blob : string;
  parsed : option (json Number);
}.

(** [fetch] either rejects (network failure) or resolves with a response,
    whatever its status. *)
Inductive FetchResult :=
  | NetworkFailure
  | Responded (r : Response).

(** What a resolved [apiRequest<T>] holds: the raw payload of a binary
    request, or [data.data] ([None] is [undefined]). *)
Inductive Payload :=
  | Blob (bytes : string)
  | Data (v : option (json Number)).

(** The network and the browser storage the client runs against. *)
Variable fetch : Request -> FetchResult.
Variable localStorage : gmap string string.

Definition getAuthToken : option string := localStorage !! "token".

(** [if (token)]: neither [null] nor the empty string. *)
Definition token_truthy (t : option string) : bool :=
  match t with
  | Some s => negb (String.eqb s "")
  | None => false
  end.

(** [options.headers && options.headers['Accept'] === 'application/octet-stream'] *)
Definition wants_octet_stream (options : RequestInit) : bool :=
  match headers options with
  | Some h =>
      match h !! "Accept" with
      | Some a => String.eqb a "application/octet-stream"
      | None => false
      end
  | None => false
  end.

(** [data.error?.message || fallback] for a non-null [data], as the string
    [new Error] makes of it; [None] when that conversion throws. *)
Definition message_or (data : json Number) (fallback : string)
  : option string :=
  let error := get_prop data "error" in
  let message :=
    match error with
    | None | Some JNull => None
    | Some e => get_prop e "message"
    end in
  match message with
  | Some m => if truthy number_is_zero m
              then to_string number_to_string m else Some fallback
  | None => Some fallback
  end.

(** What [throw new Error(v)] throws: the error with the string of [v], or
    the [TypeError] of the conversion. *)
Definition new_Error (message : option string) : exn :=
  match message with
  | Some m => Error m
  | None => TypeError "Cannot convert object to primitive value"
  end.

Definition null_property (k : string) : exn :=
  TypeError ("Cannot read properties of null (reading '" ++ k ++ "')").

(** The request [apiRequest] hands to [fetch]: the caller's headers over
    the JSON content type, plus the bearer token when there is one. *)
Definition request_of (endpoint : string) (options : RequestInit) : Request :=
  let token := getAuthToken in
  let headers0 : gmap string string :=
    default ∅ (headers options) ∪ {[ "Content-Type" := "application/json" ]} in
  let headers1 :=
    if token_truthy token
    then <[ "Authorization" := "Bearer " ++ default "" token ]> headers0
    else headers0 in
  {| url := API_BASE_URL ++ endpoint;
     req_method := method options;
     req_body := body options;
     req_headers := headers1 |}.

Definition apiRequest (endpoint : string) (options : RequestInit)
  : outcome Payload :=
  match fetch (request_of endpoint options) with
  | NetworkFailure => Throw (TypeError "Failed to fetch")
  | Responded response =>
      if wants_octet_stream options then Return (Blob (blob response))
      else
        match parsed response with
        | None => Throw SyntaxError
        | Some data =>
            if negb (ok response) then
              match data with
              | JNull => Throw (null_property "error")
              | _ => Throw (new_Error (message_or data "Request failed"))
              end
            else
              match data with
              | JNull => Throw (null_property "data")
              | _ => Return (Data (get_prop data "data"))
              end
        end
  end.

(** [exportApi.getStatus]. *)
Definition getStatus (exportId : string) : outcome Payload :=
  apiRequest ("/exports/" ++ exportId) no_options.

(** [exportApi.download]: [Return s] means the file with payload [s] was
    handed to the browser's save mechanism. *)
Definition download (exportId : string) : outcome string :=
  match getAuthToken with
  | Some token =>
      if negb (String.eqb token "") then
        match fetch {| url := API_BASE_URL ++ "/exports/" ++ exportId ++ "/download";
                       req_method := Some "GET";
                       req_body := None;
                       req_headers := {[ "Authorization" := "Bearer " ++ token ]} |} with
        | NetworkFailure => Throw (TypeError "Failed to fetch")
        | Responded response =>
            if negb (ok response) then
              match parsed response with
              | None => Throw SyntaxError
              | Some JNull => Throw (null_property "error")
              | Some e => Throw (new_Error (message_or e "Download failed"))
              end
            else Return (blob response)
        end
      else Throw (Error "Not authenticated")
  | None => Throw (Error "Not authenticated")
  end.
End Client.

End Api.

(** ** The query cache

    The page reaches the cache through four calls of the data-fetching
    library.  A query is kept under an array key; [invalidateQueries] marks
    every query whose key starts with the given one. *)

Module Cache.

Section Cache.
Context {T : Type}.

Record Query := {
  data : option T;           (* [undefined] until the first load *)
  isInvalidated : bool;
}.

Definition getQueryData (c : gmap (list string) Query) (key : list string)
  : option T :=
  c !! key ≫= data.

(** [setQueryData(key, updater)]: an updater that yields [undefined]
    leaves the cache as it is; otherwise the value is stored and the query
    counts as freshly loaded. *)
Definition setQueryData (c : gmap (list string) Query) (key : list string)
    (updater : option T -> option T) : gmap (list string) Query :=
  match updater (getQueryData c key) with
  | None => c
  | Some v => <[ key := {| data := Some v; isInvalidated := false |} ]> c
  end.

(** [setQueryData(key, value)] with a plain value. *)
Definition setQueryValue (c : gmap (list string) Query) (key : list string)
    (v : T) : gmap (list string) Query :=
  setQueryData c key (fun _ => Some v).

Definition invalidate (q : Query) : Query :=
  {| data := data q; isInvalidated := true |}.

Definition invalidateQueries (c : gmap (list string) Query)
    (key : list string) : gmap (list string) Query :=
  map_imap
    (fun k q => Some (if bool_decide (key `prefix_of` k) then invalidate q else q))
    c.

(** [cancelQueries] only drops fetches that are under way; they are not
    part of this state. *)
Definition cancelQueries (c : gmap (list string) Query) (key : list string)
  : gmap (list string) Query := c.
End Cache.

Arguments Query : clear implicits.

End Cache.

(** ** pages/ProjectDetailPage.tsx: updateTaskMutation *)

Module TaskUpdate.
Import Cache.

(** A property value of a task object. *)
Inductive field :=
  | Undefined
  | Null
  | Str (s : string)
  | Obj (props : gmap string string).   (* [assignee] *)

(** [Task] and [UpdateTaskData] objects, by property name.  An update may
    hold a property whose value is [Undefined] ([description:
    editTaskDescription || undefined]). *)
Abbreviation Task := (gmap string field).
Abbreviation UpdateTaskData := (gmap string field).

Record ProjectDetail := {
  project_id : string;
  project_name : string;
  project_description : option string;
  ownerId : string;
  createdAt : string;
  tasks : list Task;
}.

(** [task.id === taskId] *)
Definition has_id (taskId : string) (task : Task) : bool :=
  match task !! "id" with
  | Some (Str s) => String.eqb s taskId
  | _ => false
  end.

(** [{ ...task, ...data }] *)
Definition spread (task : Task) (data : UpdateTaskData) : Task := data ∪ task.

(** The updater handed to [setQueryData] in [onMutate]. *)
Definition patch (taskId : string) (data : UpdateTaskData)
    (old : option ProjectDetail) : option ProjectDetail :=
  match old with
  | None => None
  | Some old =>
      Some {| project_id := project_id old;
              project_name := project_name old;
              project_description := project_description old;
              ownerId := ownerId old;
              createdAt := createdAt old;
              tasks := map (fun task => if has_id taskId task
                                        then spread task data else task)
                           (tasks old) |}
  end.

(** What [onMutate] returns. *)
Record Context := { previousProject : option ProjectDetail }.

Section Page.
(** The route parameter. *)
Variable id : string.

Definition key : list string := ["project"; id].

Definition onMutate (c : gmap (list string) (Query ProjectDetail))
    (taskId : string) (data : UpdateTaskData)
  : gmap (list string) (Query ProjectDetail) * Context :=
  let c := cancelQueries c key in
  let previousProject := getQueryData c key in
  let c := setQueryData c key (patch taskId data) in
  (c, {| previousProject := previousProject |}).

(** [context] is [undefined] when [onMutate] produced none. *)
Definition onError (c : gmap (list string) (Query ProjectDetail))
    (context : option Context) : gmap (list string) (Query ProjectDetail) :=
  match context with
  | Some {| previousProject := Some previous |} => setQueryValue c key previous
  | _ => c
  end.

Definition onSettled (c : gmap (list string) (Query ProjectDetail))
  : gmap (list string) (Query ProjectDetail) :=
  invalidateQueries c key.

(** The library runs [onError] (on failure only) and then [onSettled]
    once [mutationFn] has resolved. *)
Definition resolved (c : gmap (list string) (Query ProjectDetail))
    (context : Context) (succeeded : bool)
  : gmap (list string) (Query ProjectDetail) :=
  onSettled (if succeeded then c else onError c (Some context)).

(** Several updates can be under way at once: each [mutate] call runs
    [onMutate] at once and keeps its own context until its server call
    resolves. *)
Inductive lifecycle_event :=
  | Mutate (m : nat) (taskId : string) (data : UpdateTaskData)
  | Resolved (m : nat) (succeeded : bool).

Record state := {
  cache : gmap (list string) (Query ProjectDetail);
  pending : gmap nat Context;
}.

Definition lifecycle_step (s : state) (e : lifecycle_event) : option state :=
  match e with
  | Mutate m taskId data =>
      match pending s !! m with
      | Some _ => None
      | None =>
          let (c, context) := onMutate (cache s) taskId data in
          Some {| cache := c; pending := <[ m := context ]> (pending s) |}
      end
  | Resolved m succeeded =>
      match pending s !! m with
      | None => None
      | Some context =>
          Some {| cache := resolved (cache s) context succeeded;
                  pending := delete m (pending s) |}
      end
  end.

Fixpoint lifecycle_run (s : state) (evs : list lifecycle_event) : option state :=
  match evs with
  | [] => Some s
  | e :: evs =>
      match lifecycle_step s e with
      | Some s' => lifecycle_run s' evs
      | None => None
      end
  end.
End Page.

End TaskUpdate.

(** ** pages/ProjectDetailPage.tsx: createExportMutation.onSuccess

    [onSuccess] sets the exporting flag and arms an interval timer of one
    second whose callback is asynchronous.  The event loop then interleaves
    the events of this export (the timer firing, the response to a status
    request arriving, the response to a download request arriving) with the
    writes other exports of the same page make to the exporting flag, which
    is one state of the page. *)

Module ExportWatch.
Import Js Api.

Definition pollIntervalMs : Z := 1000.

Section Watch.
Context {Number : Type}.
Variable number_is_zero : Number -> bool.
Variable number_to_string : Number -> string.
Variable localStorage : gmap string string.
(** [data.exportId] of the created export. *)
Variable exportId : string.

Record watcher := {
  isExporting : bool;         (* the flag of the page, shared by its exports *)
  timerArmed : bool;          (* [pollInterval] has not been cleared *)
  ticks : nat;                (* callbacks started = status requests issued *)
  inFlight : list nat;        (* status requests still awaiting a response *)
  downloading : nat;          (* download requests awaiting a response *)
  downloadCalls : nat;        (* calls of [exportApi.download] *)
  filesSaved : nat;           (* files handed to the browser *)
  alerts : list string;       (* raised by the callbacks of this export *)
  consoleErrors : list exn;   (* logged by the callbacks of this export *)
}.

(** The state [onSuccess] leaves behind. *)
Definition onSuccess : watcher :=
  {| isExporting := true; timerArmed := true; ticks := 0; inFlight := [];
     downloading := 0; downloadCalls := 0; filesSaved := 0;
     alerts := []; consoleErrors := [] |}.

Inductive event :=
  | Tick
  | StatusResponse (r : nat) (resp : @FetchResult Number)
  | DownloadResponse (resp : @FetchResult Number)
  | OtherExport (exporting : bool).
      (* another export of the page calls [setIsExporting]: [true] in its
         [onSuccess], [false] in its callbacks *)

(** The effects the callback performs, one setter each. *)
Definition clearInterval (w : watcher) : watcher :=
  {| isExporting := isExporting w; timerArmed := false; ticks := ticks w;
     inFlight := inFlight w; downloading := downloading w;
     downloadCalls := downloadCalls w; filesSaved := filesSaved w;
     alerts := alerts w; consoleErrors := consoleErrors w |}.

Definition setIsExporting (b : bool) (w : watcher) : watcher :=
  {| isExporting := b; timerArmed := timerArmed w; ticks := ticks w;
     inFlight := inFlight w; downloading := downloading w;
     downloadCalls := downloadCalls w; filesSaved := filesSaved w;
     alerts := alerts w; consoleErrors := consoleErrors w |}.

Definition alert (message : string) (w : watcher) : watcher :=
  {| isExporting := isExporting w; timerArmed := timerArmed w;
     ticks := ticks w; inFlight := inFlight w; downloading := downloading w;
     downloadCalls := downloadCalls w; filesSaved := filesSaved w;
     alerts := alerts w ++ [message]; consoleErrors := consoleErrors w |}.

Definition console_error (error : exn) (w : watcher) : watcher :=
  {| isExporting := isExporting w; timerArmed := timerArmed w;
     ticks := ticks w; inFlight := inFlight w; downloading := downloading w;
     downloadCalls := downloadCalls w; filesSaved := filesSaved w;
     alerts := alerts w; consoleErrors := consoleErrors w ++ [error] |}.

Definition set_inFlight (l : list nat) (w : watcher) : watcher :=
  {| isExporting := isExporting w; timerArmed := timerArmed w;
     ticks := ticks w; inFlight := l; downloading := downloading w;
     downloadCalls := downloadCalls w; filesSaved := filesSaved w;
     alerts := alerts w; consoleErrors := consoleErrors w |}.

Definition set_downloading (n : nat) (w : watcher) : watcher :=
  {| isExporting := isExporting w; timerArmed := timerArmed w;
     ticks := ticks w; inFlight := inFlight w; downloading := n;
     downloadCalls := downloadCalls w; filesSaved := filesSaved w;
     alerts := alerts w; consoleErrors := consoleErrors w |}.

(** The [catch] block. *)
Definition catch (w : watcher) (error : exn) : watcher :=
  console_error error (setIsExporting false (clearInterval w)).

(** [exportApi.download] is entered: without a token it throws at once,
    otherwise it suspends on its own [fetch]. *)
Definition call_download (w : watcher) : watcher :=
  let w := {| isExporting := isExporting w; timerArmed := timerArmed w;
              ticks := ticks w; inFlight := inFlight w;
              downloading := downloading w;
              downloadCalls := S (downloadCalls w);
              filesSaved := filesSaved w;
              alerts := alerts w; consoleErrors := consoleErrors w |} in
  if token_truthy (getAuthToken localStorage)
  then set_downloading (S (downloading w)) w
  else catch w (Error "Not authenticated").

(** [exportApi.download] has got its blob and clicked the link. *)
Definition save_file (w : watcher) : watcher :=
  {| isExporting := isExporting w; timerArmed := timerArmed w;
     ticks := ticks w; inFlight := inFlight w; downloading := downloading w;
     downloadCalls := downloadCalls w; filesSaved := S (filesSaved w);
     alerts := alerts w; consoleErrors := consoleErrors w |}.

(** The body of the callback after [await exportApi.getStatus(...)]. *)
Definition on_status (w : watcher) (status : outcome (@Payload Number))
  : watcher :=
  match status with
  | Throw error => catch w error
  | Return (Blob _) => w
  | Return (Data None) =>
      catch w (TypeError "Cannot read properties of undefined (reading 'status')")
  | Return (Data (Some JNull)) => catch w (null_property "status")
  | Return (Data (Some job)) =>
      match get_prop job "status" with
      | Some (JString s) =>
          if String.eqb s "COMPLETED" then
            call_download (setIsExporting false (clearInterval w))
          else if String.eqb s "FAILED" then
            alert "Export failed. Please try again."
                  (setIsExporting false (clearInterval w))
          else w
      | _ => w
      end
  end.

Definition remove (r : nat) (l : list nat) : list nat :=
  filter (fun x => x ≠ r) l.

(** The timer fires: the callback starts and issues its status request. *)
Definition tick (w : watcher) : watcher :=
  {| isExporting := isExporting w; timerArmed := timerArmed w;
     ticks := S (ticks w); inFlight := inFlight w ++ [ticks w];
     downloading := downloading w;
     downloadCalls := downloadCalls w; filesSaved := filesSaved w;
     alerts := alerts w; consoleErrors := consoleErrors w |}.

Definition step (w : watcher) (e : event) : option watcher :=
  match e with
  | Tick => if timerArmed w then Some (tick w) else None
  | StatusResponse r resp =>
      if bool_decide (r ∈ inFlight w) then
        Some (on_status (set_inFlight (remove r (inFlight w)) w)
                (getStatus number_is_zero number_to_string
                           (fun _ => resp) localStorage exportId))
      else None
  | DownloadResponse resp =>
      match downloading w with
      | O => None
      | S n =>
          match download number_is_zero number_to_string
                         (fun _ => resp) localStorage exportId with
          | Return _ => Some (save_file (set_downloading n w))
          | Throw error => Some (catch (set_downloading n w) error)
          end
      end
  | OtherExport exporting => Some (setIsExporting exporting w)
  end.

Fixpoint run (w : watcher) (evs : list event) : option watcher :=
  match evs with
  | [] => Some w
  | e :: evs =>
      match step w e with
      | Some w' => run w' evs
      | None => None
      end
  end.

(** Time passed since the timer was armed when its [n]-th callback
    starts. *)
Definition elapsedMs (n : nat) : Z := pollIntervalMs * Z.of_nat n.
End Watch.

End ExportWatch.

(** ** pages/ProjectDetailPage.tsx: filter, edit form, task mutations *)

Module ProjectPage.
Import Cache TaskUpdate.

(** [statusFilter] *)
Inductive StatusFilter := ALL | TODO | IN_PROGRESS | DONE.

Definition filter_value (f : StatusFilter) : string :=
  match f with
  | ALL => "ALL"
  | TODO => "TODO"
  | IN_PROGRESS => "IN_PROGRESS"
  | DONE => "DONE"
  end.

(** [task.status === st] *)
Definition has_status (st : string) (task : Task) : bool :=
  match task !! "status" with
  | Some (Str s) => String.eqb s st
  | _ => false
  end.

(** [project?.tasks.filter(...) || []], [project] being the data the
    query serves. *)
Definition filteredTasks (project : option ProjectDetail)
    (statusFilter : StatusFilter) : list Task :=
  match project with
  | None => []
  | Some project =>
      List.filter
        (fun task =>
           match statusFilter with
           | ALL => true
           | _ => has_status (filter_value statusFilter) task
           end)
        (tasks project)
  end.

(** [task.k]: a missing property reads as [undefined]. *)
Definition read (task : Task) (k : string) : field :=
  default Undefined (task !! k).

(** ToBoolean and [v || d] on property values. *)
Definition truthy_field (v : field) : bool :=
  match v with
  | Undefined | Null => false
  | Str s => negb (String.eqb s "")
  | Obj _ => true
  end.

Definition or_else (v d : field) : field :=
  if truthy_field v then v else d.

(** The state of the inline edit form.  [handleEditStart] takes its task
    as [any], so the form holds whatever values the task held. *)
Record EditForm := {
  editingTaskId : field;
  editTaskTitle : field;
  editTaskDescription : field;
  editTaskPriority : field;
}.

Definition closed_form : EditForm :=
  {| editingTaskId := Null; editTaskTitle := Str "";
     editTaskDescription := Str ""; editTaskPriority := Str "MEDIUM" |}.

Definition handleEditStart (task : Task) : EditForm :=
  {| editingTaskId := read task "id";
     editTaskTitle := read task "title";
     editTaskDescription := or_else (read task "description") (Str "");
     editTaskPriority := read task "priority" |}.

(** [handleEditSave]: the variables handed to [updateTaskMutation.mutate]
    and the form afterwards. *)
Definition handleEditSave (form : EditForm) (taskId : string)
  : (string * UpdateTaskData) * EditForm :=
  ((taskId,
    {[ "title" := editTaskTitle form;
       "description" := or_else (editTaskDescription form) Undefined;
       "priority" := editTaskPriority form ]}),
   {| editingTaskId := Null;
      editTaskTitle := editTaskTitle form;
      editTaskDescription := editTaskDescription form;
      editTaskPriority := editTaskPriority form |}).

Definition handleEditCancel (form : EditForm) : EditForm := closed_form.

(** [handleStatusChange]: the variables handed to
    [updateTaskMutation.mutate]. *)
Definition handleStatusChange (taskId newStatus : string)
  : string * UpdateTaskData :=
  (taskId, {[ "status" := Str newStatus ]}).

(** The state of the new-task form. *)
Record NewTaskForm := {
  showNewTaskForm : bool;
  newTaskTitle : string;
  newTaskDescription : string;
  newTaskPriority : string;
}.

Section Mutations.
Context {T : Type}.
(** The route parameter. *)
Variable id : string.

(** [createTaskMutation.onSuccess] *)
Definition createTask_onSuccess (c : gmap (list string) (Query T))
    (form : NewTaskForm) : gmap (list string) (Query T) * NewTaskForm :=
  (invalidateQueries c (key id),
   {| showNewTaskForm := false; newTaskTitle := "";
      newTaskDescription := ""; newTaskPriority := "MEDIUM" |}).

(** [deleteTaskMutation.onSuccess] *)
Definition deleteTask_onSuccess (c : gmap (list string) (Query T))
  : gmap (list string) (Query T) :=
  invalidateQueries c (key id).
End Mutations.

End ProjectPage.

(** ** pages/DashboardPage.tsx: project mutations and logout *)

Module Dashboard.
Import Cache.

Definition projects_key : list string := ["projects"].

(** [onSuccess] of [createProjectMutation], [updateProjectMutation] and
    [deleteProjectMutation], as far as the cache goes. *)
Definition project_onSuccess {T : Type} (c : gmap (list string) (Query T))
  : gmap (list string) (Query T) :=
  invalidateQueries c projects_key.

(** [handleLogout]: the storage afterwards and the path navigated to. *)
Definition handleLogout (localStorage : gmap string string)
  : gmap string string * string :=
  (delete "user" (delete "token" localStorage), "/login").

End Dashboard.

(** ** App.tsx: the route table and its guard *)

Module App.
Import Api.

Inductive page :=
  | LoginPage
  | RegisterPage
  | DashboardPage
  | ProjectDetailPage (id : string).

Inductive element :=
  | Render (p : page)
  | Navigate (to : string).

(** The entry of the route table the router has matched. *)
Inductive route :=
  | login_route                    (* [/login] *)
  | register_route                 (* [/register] *)
  | dashboard_route                (* [/dashboard] *)
  | project_route (id : string)    (* [/projects/:id] *)
  | root_route                     (* [/] *)
  | catch_all.                     (* [*] *)

Definition ProtectedRoute (localStorage : gmap string string)
    (children : element) : element :=
  let token := localStorage !! "token" in
  if negb (token_truthy token) then Navigate "/login" else children.

(** The [element] of each route. *)
Definition route_element (localStorage : gmap string string) (r : route)
  : element :=
  match r with
  | login_route => Render LoginPage
  | register_route => Render RegisterPage
  | dashboard_route => ProtectedRoute localStorage (Render DashboardPage)
  | project_route id => ProtectedRoute localStorage (Render (ProjectDetailPage id))
  | root_route => Navigate "/dashboard"
  | catch_all => Navigate "/dashboard"
  end.

(** The routes the two navigation targets of the table match. *)
Definition target_route (to : string) : option route :=
  if String.eqb to "/login" then Some login_route
  else if String.eqb to "/dashboard" then Some dashboard_route
  else None.

(** Rendering a route and following at most [hops] navigations. *)
Fixpoint settle (hops : nat) (localStorage : gmap string string) (r : route)
  : option page :=
  match route_element localStorage r with
  | Render p => Some p
  | Navigate to =>
      match hops with
      | O => None
      | S hops =>
          match target_route to with
          | Some r' => settle hops localStorage r'
          | None => None
          end
      end
  end.

End App.

(** ** Sample data

    Integers stand in for JSON numbers in the samples. *)

Module Samples.
Import Js Api.

Definition is_zero (n : Z) : bool := Z.eqb n 0.
Definition show (n : Z) : string := pretty n.

(** [{ success: false, error: { code, message } }] *)
Definition error_envelope (code message : string) : json Z :=
  JObject {[ "success" := JBool false;
             "error" := JObject {[ "code" := JString code;
                                   "message" := JString message ]} ]}.


(** A failed binary request: status 500 with an error envelope as body. *)
Definition server_error : @Response Z :=
  {| ok := false; status := 500; blob := "{...}";
     parsed := Some (error_envelope "INTERNAL" "Export file missing") |}.

Definition octet_stream : RequestInit :=
  {| method := Some "GET"; body := None;
     headers := Some {[ "Accept" := "application/octet-stream" ]} |}.

Definition session : gmap string string := {[ "token" := "jwt" ]}.

(** [{ success: true, data: { id, status, ... } }] *)
Definition job_status {Number : Type} (st : string) : @Response Number :=
  {| ok := true; status := 200; blob := "{...}";
     parsed := Some (JObject {[ "success" := JBool true;
                                "data" := JObject {[ "id" := JString "e1";
                                                     "status" := JString st ]} ]}) |}.

Definition file : @Response Z :=
  {| ok := true; status := 200; blob := "[tasks]"; parsed := None |}.

(** [n] polls one after the other, numbered from [k], each answered with
    the same response before the next timer firing. *)
Fixpoint poll_rounds {Number : Type} (resp : @FetchResult Number) (k n : nat)
  : list (@ExportWatch.event Number) :=
  match n with
  | O => []
  | S n => ExportWatch.Tick :: ExportWatch.StatusResponse k resp
           :: poll_rounds resp (S k) n
  end.

(** A cached project with two tasks, under the key of route [p1]. *)
Definition report : TaskUpdate.Task :=
  {[ "id" := TaskUpdate.Str "t1"; "title" := TaskUpdate.Str "Write report";
     "status" := TaskUpdate.Str "TODO"; "description" := TaskUpdate.Null ]}.

Definition release : TaskUpdate.Task :=
  {[ "id" := TaskUpdate.Str "t2"; "title" := TaskUpdate.Str "Cut release";
     "status" := TaskUpdate.Str "IN_PROGRESS" ]}.

Definition alpha : TaskUpdate.ProjectDetail :=
  {| TaskUpdate.project_id := "p1"; TaskUpdate.project_name := "Alpha";
     TaskUpdate.project_description := None; TaskUpdate.ownerId := "u1";
     TaskUpdate.createdAt := "2024-01-01T00:00:00Z";
     TaskUpdate.tasks := [report; release] |}.

Definition loaded : gmap (list string) (Cache.Query TaskUpdate.ProjectDetail) :=
  {[ ["project"; "p1"] := {| Cache.data := Some alpha; Cache.isInvalidated := false |} ]}.

(** The query is mounted but its first load has not come back. *)
Definition loading : gmap (list string) (Cache.Query TaskUpdate.ProjectDetail) :=
  {[ ["project"; "p1"] := {| Cache.data := None; Cache.isInvalidated := false |} ]}.

Definition mark_done : TaskUpdate.UpdateTaskData := {[ "status" := TaskUpdate.Str "DONE" ]}.

(** A task with a description. *)
Definition review : TaskUpdate.Task :=
  {[ "id" := TaskUpdate.Str "t3"; "title" := TaskUpdate.Str "Review";
     "priority" := TaskUpdate.Str "HIGH";
     "description" := TaskUpdate.Str "Second pass";
     "status" := TaskUpdate.Str "TODO" ]}.

Definition retitle : TaskUpdate.UpdateTaskData :=
  {[ "title" := TaskUpdate.Str "Ship it"; "description" := TaskUpdate.Undefined ]}.

End Samples.

(** * Properties *)

(** ** The API client *)

Module ApiFacts.
Import Js Api.

Section Client.
Context {Number : Type}.
Variable number_is_zero : Number -> bool.
Variable number_to_string : Number -> string.
Variable fetch : Request -> @FetchResult Number.
Variable localStorage : gmap string string.

Local Abbreviation apiRequest :=
  (apiRequest number_is_zero number_to_string fetch localStorage).
Local Abbreviation message_or := (message_or number_is_zero number_to_string).




(** C9.  A request whose [Accept] header is [application/octet-stream]
    resolves with the raw body of whatever response arrived: the [ok] flag of
    the response is never looked at, so a non-success status raises nothing. *)
Theorem binary_request_ignores_status
    (endpoint : string) (options : RequestInit) (h : gmap string string)
    (r : @Response Number) :
  headers options = Some h ->
  h !! "Accept" = Some "application/octet-stream" ->
  fetch (request_of localStorage endpoint options) = Responded r ->
  apiRequest endpoint options = Return (Blob (blob r)).
Proof.
  intros Hh Ha Hr. unfold Api.apiRequest. rewrite Hr.
  unfold wants_octet_stream. rewrite Hh, Ha. reflexivity.
Qed.

End Client.

(** C9 at a sample: a download answered with status 500 resolves with the
    body of the error response. *)
Lemma binary_request_ignores_status_witness :
  headers Samples.octet_stream = Some {[ "Accept" := "application/octet-stream" ]} /\
  ok Samples.server_error = false /\
  apiRequest Samples.is_zero Samples.show
    (fun _ => Responded Samples.server_error) Samples.session
    "/exports/e1/download" Samples.octet_stream
  = Return (Blob "{...}").
Proof.
  split; [reflexivity | split; [reflexivity |]].
  apply (binary_request_ignores_status Samples.is_zero Samples.show
           (fun _ => Responded Samples.server_error) Samples.session
           "/exports/e1/download" Samples.octet_stream
           {[ "Accept" := "application/octet-stream" ]} Samples.server_error);
    reflexivity.
Defined.



(** A message that has no string: [new Error] throws the [TypeError] of the
    conversion instead of building the error. *)
Lemma message_without_string_raises_TypeError :
  apiRequest Samples.is_zero Samples.show
    (fun _ => Responded
       {| ok := false; status := 400; blob := "{...}";
          parsed := Some (JObject {[ "error" :=
                      JObject {[ "message" :=
                        JObject {[ "toString" := JNumber 1%Z ]} ]} ]}) |})
    Samples.session "/tasks" no_options
  = Throw (TypeError "Cannot convert object to primitive value").
Proof. vm_compute; reflexivity. Qed.

End ApiFacts.

(** ** The cache *)

Module CacheFacts.
Import Cache.

Section Cache.
Context {T : Type}.
Implicit Types (c : gmap (list string) (Query T)) (key : list string).

Lemma getQueryData_setQueryData c key (updater : option T -> option T) (v : T) :
  updater (getQueryData c key) = Some v ->
  getQueryData (setQueryData c key updater) key = Some v.
Proof.
  intros Hu. unfold setQueryData. rewrite Hu.
  unfold getQueryData. now rewrite lookup_insert_eq.
Qed.

Lemma setQueryData_undefined c key (updater : option T -> option T) :
  updater (getQueryData c key) = None -> setQueryData c key updater = c.
Proof. intros Hu. unfold setQueryData. now rewrite Hu. Qed.

Lemma getQueryData_setQueryValue c key (v : T) :
  getQueryData (setQueryValue c key v) key = Some v.
Proof. now apply getQueryData_setQueryData. Qed.

Lemma lookup_invalidateQueries c key (k : list string) :
  invalidateQueries c key !! k
  = (fun q => if bool_decide (key `prefix_of` k) then invalidate q else q) <$> c !! k.
Proof.
  unfold invalidateQueries. rewrite map_lookup_imap.
  now destruct (c !! k).
Qed.

Lemma lookup_invalidateQueries_same c key :
  invalidateQueries c key !! key = invalidate <$> c !! key.
Proof.
  rewrite lookup_invalidateQueries.
  now rewrite bool_decide_eq_true_2 by reflexivity.
Qed.

(** Invalidation never touches the stored data. *)
Lemma getQueryData_invalidateQueries c key (k : list string) :
  getQueryData (invalidateQueries c key) k = getQueryData c k.
Proof.
  unfold getQueryData. rewrite lookup_invalidateQueries.
  destruct (c !! k) as [q |]; [| reflexivity].
  simpl. now case_bool_decide.
Qed.
End Cache.

End CacheFacts.

(** ** The optimistic task update *)

Module TaskUpdateFacts.
Import Cache CacheFacts TaskUpdate.

(** What the spread does to one property. *)
Lemma lookup_spread (task : Task) (data : UpdateTaskData) (k : string) :
  spread task data !! k
  = match data !! k with Some v => Some v | None => task !! k end.
Proof.
  unfold spread. rewrite lookup_union.
  destruct (data !! k), (task !! k); reflexivity.
Qed.

Lemma patch_tasks (taskId : string) (data : UpdateTaskData)
    (old new : ProjectDetail) (i : nat) (task : Task) :
  patch taskId data (Some old) = Some new ->
  tasks old !! i = Some task ->
  tasks new !! i = Some (if has_id taskId task then spread task data else task).
Proof.
  intros [= <-] Hi. simpl. rewrite list_lookup_fmap, Hi. reflexivity.
Qed.

(** [has_id] holds of exactly the tasks whose [id] is the string
    [taskId]. *)
Lemma has_id_iff (taskId : string) (task : Task) :
  has_id taskId task = true <-> task !! "id" = Some (Str taskId).
Proof.
  unfold has_id.
  destruct (task !! "id") as [[| | s |] |]; split; try discriminate.
  - intros H. apply String.eqb_eq in H. now subst.
  - intros [= ->]. apply String.eqb_refl.
Qed.

Section Page.
Variable id : string.
Implicit Types (c : gmap (list string) (Query ProjectDetail)).

Local Abbreviation key := (key id).

(** C5.  When a project is cached, a [mutate] call leaves the server call
    outstanding and the cache already serving the patched project: same
    project properties, same number of tasks in the same order, every task
    whose [id] is the targeted one carrying each property of the update
    (the others as they were), every other task untouched.  The context
    keeps the project as it was before. *)
Theorem optimistic_write_is_read_back
    (s : state) (m : nat) (taskId : string) (data : UpdateTaskData)
    (old : ProjectDetail) :
  pending s !! m = None ->
  getQueryData (cache s) key = Some old ->
  exists (s' : state) (new : ProjectDetail),
    lifecycle_step id s (Mutate m taskId data) = Some s' /\
    pending s' !! m = Some {| previousProject := Some old |} /\
    getQueryData (cache s') key = Some new /\
    project_id new = project_id old /\
    project_name new = project_name old /\
    project_description new = project_description old /\
    ownerId new = ownerId old /\
    createdAt new = createdAt old /\
    length (tasks new) = length (tasks old) /\
    forall (i : nat) (task : Task),
      tasks old !! i = Some task ->
      exists task' : Task,
        tasks new !! i = Some task' /\
        (task !! "id" = Some (Str taskId) ->
         forall k : string,
           task' !! k = match data !! k with
                        | Some v => Some v
                        | None => task !! k
                        end) /\
        (task !! "id" <> Some (Str taskId) -> task' = task).
Proof.
  intros Hm Hold.
  destruct (patch taskId data (Some old)) as [new |] eqn:Hpatch; [| discriminate].
  exists {| cache := setQueryData (cache s) key (patch taskId data);
            pending := <[ m := {| previousProject := Some old |} ]> (pending s) |}, new.
  split.
  { simpl. rewrite Hm. unfold onMutate, cancelQueries. now rewrite Hold. }
  split; [simpl; apply lookup_insert_eq |].
  split.
  { simpl. apply getQueryData_setQueryData. now rewrite Hold. }
  pose proof Hpatch as [= Hnew].
  repeat (split; [now rewrite <- Hnew |]).
  split; [rewrite <- Hnew; simpl; apply length_map |].
  intros i task Hi.
  exists (if has_id taskId task then spread task data else task).
  split; [now apply patch_tasks with (old := old) |].
  split.
  - intros Hid. apply has_id_iff in Hid. rewrite Hid.
    intros k. apply lookup_spread.
  - intros Hid. destruct (has_id taskId task) eqn:Hb; [| reflexivity].
    apply has_id_iff in Hb. contradiction.
Qed.

(** C6.  Once the server call of a task update has resolved, with either
    result and whatever context the update carried, the mounted project
    query is marked invalidated. *)
Theorem settled_update_invalidates
    (s : state) (m : nat) (context : Context) (succeeded : bool)
    (q : Query ProjectDetail) :
  pending s !! m = Some context ->
  cache s !! key = Some q ->
  exists (s' : state) (q' : Query ProjectDetail),
    lifecycle_step id s (Resolved m succeeded) = Some s' /\
    pending s' !! m = None /\
    cache s' !! key = Some q' /\
    isInvalidated q' = true.
Proof.
  intros Hm Hq.
  set (c1 := if succeeded then cache s else onError id (cache s) (Some context)).
  assert (exists q1, c1 !! key = Some q1) as [q1 Hq1].
  { subst c1. destruct succeeded; [eauto |].
    destruct context as [[previous |]]; simpl; [| eauto].
    unfold setQueryValue, setQueryData. rewrite lookup_insert_eq. eauto. }
  exists {| cache := resolved id (cache s) context succeeded;
            pending := delete m (pending s) |}, (invalidate q1).
  split; [simpl; now rewrite Hm |].
  split; [simpl; apply lookup_delete_eq |].
  split; [| reflexivity].
  simpl. unfold resolved, onSettled. fold c1.
  rewrite lookup_invalidateQueries_same, Hq1. reflexivity.
Qed.

(** C3, as the code has it.  When the server call of an update fails and
    its context holds a snapshot, the snapshot is put back whatever the cache
    holds by then. *)
Theorem rollback_restores_snapshot
    (s : state) (m : nat) (previous : ProjectDetail) :
  pending s !! m = Some {| previousProject := Some previous |} ->
  exists s' : state,
    lifecycle_step id s (Resolved m false) = Some s' /\
    getQueryData (cache s') key = Some previous.
Proof.
  intros Hm.
  exists {| cache := resolved id (cache s) {| previousProject := Some previous |} false;
            pending := delete m (pending s) |}.
  split; [simpl; now rewrite Hm |].
  simpl. unfold resolved, onSettled. rewrite getQueryData_invalidateQueries.
  simpl. apply getQueryData_setQueryValue.
Qed.

(** C10.  With nothing cached under the project key, [onMutate] returns the
    cache as it got it and a context without snapshot, [onError] with that
    context returns the cache as it got it, and after the whole failed life
    cycle there is still nothing cached under the key. *)
Theorem empty_cache_cycle_is_noop
    (c : gmap (list string) (Query ProjectDetail))
    (taskId : string) (data : UpdateTaskData) :
  getQueryData c key = None ->
  (onMutate id c taskId data).1 = c /\
  previousProject (onMutate id c taskId data).2 = None /\
  onError id (onMutate id c taskId data).1 (Some (onMutate id c taskId data).2) = c /\
  getQueryData (resolved id (onMutate id c taskId data).1
                            (onMutate id c taskId data).2 false) key = None.
Proof.
  intros Hnone.
  assert (onMutate id c taskId data = (c, {| previousProject := None |})) as ->.
  { unfold onMutate, cancelQueries. rewrite Hnone.
    now rewrite setQueryData_undefined by now rewrite Hnone. }
  simpl. repeat split; try reflexivity.
  unfold resolved, onSettled. now rewrite getQueryData_invalidateQueries.
Qed.
End Page.

(** C5 at a sample: marking the first task of the cached project as done.
    The report, whose id is [t1], is read back with status [DONE] and its
    title as before; the release, whose id is [t2], is read back as it
    was. *)
Lemma optimistic_write_is_read_back_witness :
  (∅ : gmap nat Context) !! 0 = None /\
  getQueryData Samples.loaded (key "p1") = Some Samples.alpha /\
  exists (s' : state) (new : ProjectDetail) (report' : Task),
    lifecycle_step "p1" {| cache := Samples.loaded; pending := ∅ |}
         (Mutate 0 "t1" Samples.mark_done) = Some s' /\
    getQueryData (cache s') (key "p1") = Some new /\
    length (tasks new) = 2 /\
    tasks new !! 0 = Some report' /\
    report' !! "status" = Some (Str "DONE") /\
    report' !! "title" = Some (Str "Write report") /\
    tasks new !! 1 = Some Samples.release.
Proof.
  assert (H0 : (∅ : gmap nat Context) !! 0 = None) by reflexivity.
  assert (H1 : getQueryData Samples.loaded (key "p1") = Some Samples.alpha)
    by (vm_compute; reflexivity).
  split; [exact H0 | split; [exact H1 |]].
  destruct (optimistic_write_is_read_back "p1"
              {| cache := Samples.loaded; pending := ∅ |} 0 "t1"
              Samples.mark_done Samples.alpha H0 H1)
    as (s' & new & Hstep & _ & Hread & _ & _ & _ & _ & _ & Hlen & Htasks).
  destruct (Htasks 0 Samples.report eq_refl) as (report' & Hreport & Hpatched & _).
  destruct (Htasks 1 Samples.release eq_refl) as (release' & Hrelease & _ & Hsame).
  exists s', new, report'.
  repeat (split; [assumption |]).
  split; [| split].
  - now rewrite (Hpatched eq_refl "status").
  - now rewrite (Hpatched eq_refl "title").
  - rewrite Hrelease. f_equal. apply Hsame. vm_compute. discriminate.
Defined.

(** C6 at a sample: an update of the loaded project fails and is rolled
    back; the query ends up invalidated. *)
Lemma settled_update_invalidates_witness :
  exists (s' : state) (q' : Query ProjectDetail),
    lifecycle_step "p1" {| cache := Samples.loaded;
                 pending := {[ 0 := {| previousProject := Some Samples.alpha |} ]} |}
         (Resolved 0 false) = Some s' /\
    pending s' !! 0 = None /\
    cache s' !! key "p1" = Some q' /\
    isInvalidated q' = true.
Proof.
  apply (settled_update_invalidates "p1"
           {| cache := Samples.loaded;
              pending := {[ 0 := {| previousProject := Some Samples.alpha |} ]} |}
           0 {| previousProject := Some Samples.alpha |} false
           {| data := Some Samples.alpha; isInvalidated := false |});
    vm_compute; reflexivity.
Defined.

(** C3 at a sample: the snapshot comes back over an emptied entry. *)
Lemma rollback_restores_snapshot_witness :
  exists s' : state,
    lifecycle_step "p1" {| cache := Samples.loading;
                 pending := {[ 7 := {| previousProject := Some Samples.alpha |} ]} |}
         (Resolved 7 false) = Some s' /\
    getQueryData (cache s') (key "p1") = Some Samples.alpha.
Proof.
  apply (rollback_restores_snapshot "p1"
           {| cache := Samples.loading;
              pending := {[ 7 := {| previousProject := Some Samples.alpha |} ]} |}
           7 Samples.alpha).
  vm_compute; reflexivity.
Defined.

(** C10 at a sample: an update issued while the project is still loading. *)
Lemma empty_cache_cycle_is_noop_witness :
  getQueryData Samples.loading (key "p1") = None /\
  (onMutate "p1" Samples.loading "t1" Samples.mark_done).1 = Samples.loading /\
  previousProject (onMutate "p1" Samples.loading "t1" Samples.mark_done).2 = None.
Proof.
  assert (H0 : getQueryData Samples.loading (key "p1") = None)
    by (vm_compute; reflexivity).
  split; [exact H0 |].
  destruct (empty_cache_cycle_is_noop "p1" Samples.loading "t1"
              Samples.mark_done H0) as (H1 & H2 & _).
  split; assumption.
Defined.

(** C3 as stated fails.  Update 0 marks the report done, update 1 then
    retitles the release and succeeds, update 0 fails: the rollback of
    update 0 puts the project back as it was before either, and the title
    written by update 1 is gone. *)
Lemma stale_rollback_overwrites_later_write :
  let s0 := {| cache := Samples.loaded; pending := ∅ |} in
  let title_of_release (s : state) :=
    getQueryData (cache s) (key "p1") ≫= fun p => tasks p !! 1 ≫= (.!! "title") in
  (lifecycle_run "p1" s0 [Mutate 0 "t1" Samples.mark_done;
                Mutate 1 "t2" Samples.retitle;
                Resolved 1 true]
     ≫= title_of_release) = Some (Str "Ship it") /\
  (lifecycle_run "p1" s0 [Mutate 0 "t1" Samples.mark_done;
                Mutate 1 "t2" Samples.retitle;
                Resolved 1 true;
                Resolved 0 false]
     ≫= title_of_release) = Some (Str "Cut release") /\
  (lifecycle_run "p1" s0 [Mutate 0 "t1" Samples.mark_done;
                Mutate 1 "t2" Samples.retitle;
                Resolved 1 true;
                Resolved 0 false]
     ≫= fun s => getQueryData (cache s) (key "p1")) = Some Samples.alpha.
Proof. repeat split; vm_compute; reflexivity. Qed.

End TaskUpdateFacts.

(** ** The export watcher *)

Module ExportWatchFacts.
Import Js Api ExportWatch.

Section Watch.
Context {Number : Type}.
Variable number_is_zero : Number -> bool.
Variable number_to_string : Number -> string.
Variable localStorage : gmap string string.
Variable exportId : string.

Local Abbreviation step := (step number_is_zero number_to_string localStorage exportId).
Local Abbreviation run := (run number_is_zero number_to_string localStorage exportId).
Local Abbreviation on_status := (on_status localStorage).
Local Abbreviation getStatus resp :=
  (getStatus number_is_zero number_to_string (fun _ => resp) localStorage exportId).

Lemma run_app (w : watcher) (evs1 evs2 : list event) :
  run w (evs1 ++ evs2) = run w evs1 ≫= fun w' => run w' evs2.
Proof.
  revert w. induction evs1 as [| e evs1 IH]; intros w; simpl; [reflexivity |].
  destruct (step w e); simpl; [apply IH | reflexivity].
Qed.

(** The callback body never re-arms the timer and never starts a callback. *)
Lemma on_status_timer (w : watcher) (status : outcome (@Payload Number)) :
  ticks (on_status w status) = ticks w /\
  (timerArmed w = false -> timerArmed (on_status w status) = false).
Proof.
  unfold ExportWatch.on_status, call_download, catch.
  repeat case_match; simpl; auto.
Qed.

Lemma step_timer_off (w w' : watcher) (e : event) :
  timerArmed w = false -> step w e = Some w' ->
  timerArmed w' = false /\ ticks w' = ticks w.
Proof.
  intros Hoff Hstep. destruct e as [| r resp | resp | exporting]; simpl in Hstep.
  - rewrite Hoff in Hstep. discriminate.
  - case_bool_decide; [| discriminate]. injection Hstep as <-.
    destruct (on_status_timer (set_inFlight (remove r (inFlight w)) w)
                (getStatus resp)) as [Ht Ha].
    split; [now apply Ha | exact Ht].
  - destruct (downloading w); [discriminate |].
    case_match; injection Hstep as <-; simpl; auto.
  - injection Hstep as <-. simpl. auto.
Qed.

(** Once the timer is cleared no further status request is issued. *)
Lemma run_timer_off (evs : list event) (w w' : watcher) :
  timerArmed w = false -> run w evs = Some w' ->
  timerArmed w' = false /\ ticks w' = ticks w.
Proof.
  revert w. induction evs as [| e evs IH]; intros w Hoff Hrun; simpl in Hrun.
  - injection Hrun as <-. auto.
  - destruct (step w e) as [w1 |] eqn:Hstep; [| discriminate].
    destruct (step_timer_off w w1 e Hoff Hstep) as [Hoff1 Ht1].
    destruct (IH w1 Hoff1 Hrun) as [Hoff' Ht']. split; [assumption | congruence].
Qed.

Lemma getStatus_job (st : string) :
  getStatus (Responded (Samples.job_status st))
  = Return (Data (Some (JObject {[ "id" := JString "e1";
                                   "status" := JString st ]}))).
Proof. reflexivity. Qed.

(** A job that is still pending or processing leaves the watcher as it
    is. *)
Lemma on_status_in_progress (w : watcher) (st : string) :
  st = "PENDING" \/ st = "PROCESSING" ->
  on_status w (getStatus (Responded (Samples.job_status st))) = w.
Proof.
  intros [-> | ->]; rewrite getStatus_job; reflexivity.
Qed.

Lemma remove_last (k : nat) : remove k ([] ++ [k]) = [].
Proof.
  unfold remove. simpl. rewrite filter_cons, decide_False by auto.
  reflexivity.
Qed.

(** One poll answered before the next firing. *)
Lemma answered_round (w : watcher) (resp : @FetchResult Number) :
  timerArmed w = true -> inFlight w = [] ->
  run w [Tick; StatusResponse (ticks w) resp]
  = Some (on_status (set_inFlight [] (tick w)) (getStatus resp)).
Proof.
  intros Harmed Hnone.
  change (run w (Tick :: ?evs)) with (match step w Tick with
                                      | Some w' => run w' evs
                                      | None => None
                                      end).
  change (step w Tick) with (if timerArmed w then Some (tick w) else None).
  rewrite Harmed.
  change (run (tick w) [?e]) with (match step (tick w) e with
                                   | Some w' => Some w'
                                   | None => None
                                   end).
  change (step (tick w) (StatusResponse ?r ?resp))
    with (if bool_decide (r ∈ inFlight (tick w))
          then Some (on_status (set_inFlight (remove r (inFlight (tick w))) (tick w))
                               (getStatus resp))
          else None).
  change (inFlight (tick w)) with (inFlight w ++ [ticks w])%list.
  rewrite Hnone, remove_last.
  now rewrite bool_decide_eq_true_2 by apply list_elem_of_here.
Qed.

Lemma poll_round (w : watcher) (st : string) :
  st = "PENDING" \/ st = "PROCESSING" ->
  timerArmed w = true -> inFlight w = [] ->
  run w [Tick; StatusResponse (ticks w) (Responded (Samples.job_status st))]
  = Some (set_inFlight [] (tick w)).
Proof.
  intros Hst Harmed Hnone.
  rewrite answered_round by assumption.
  now rewrite on_status_in_progress.
Qed.

Lemma poll_rounds_from (resp_status : string) (n : nat) (w : watcher) :
  resp_status = "PENDING" \/ resp_status = "PROCESSING" ->
  timerArmed w = true -> inFlight w = [] ->
  exists w' : watcher,
    run w (Samples.poll_rounds (Responded (Samples.job_status resp_status)) (ticks w) n)
    = Some w' /\
    ticks w' = ticks w + n /\ timerArmed w' = true /\ inFlight w' = [] /\
    isExporting w' = isExporting w /\ downloading w' = downloading w /\
    downloadCalls w' = downloadCalls w /\ filesSaved w' = filesSaved w /\
    alerts w' = alerts w /\ consoleErrors w' = consoleErrors w.
Proof.
  intros Hst. revert w. induction n as [| n IH]; intros w Harmed Hnone.
  - exists w. simpl. rewrite Nat.add_0_r. repeat split; auto.
  - change (Samples.poll_rounds ?resp (ticks w) (S n))
      with ([Tick; StatusResponse (ticks w) resp]
              ++ Samples.poll_rounds resp (S (ticks w)) n)%list.
    rewrite run_app, poll_round by assumption. simpl mbind.
    destruct (IH (set_inFlight [] (tick w)) Harmed eq_refl)
      as (w' & Hrun & Ht & Ha & Hi & He & Hd & Hc & Hf & Hal & Hce).
    exists w'. simpl in *. rewrite Hrun.
    repeat split; try assumption. lia.
Qed.

(** C4, on the code.  However long the job stays pending or processing,
    the watcher keeps going: after [n] polls, one per second and each
    answered in time, the timer is still armed, the exporting flag is still
    set, nothing was downloaded, alerted or logged, and the next timer
    firing issues poll [n + 1].  No bound on the elapsed time stops it. *)
Theorem polling_has_no_timeout (resp_status : string) (n : nat) :
  resp_status = "PENDING" \/ resp_status = "PROCESSING" ->
  exists w : watcher,
    run onSuccess
        (Samples.poll_rounds (Responded (Samples.job_status resp_status)) 0 n)
    = Some w /\
    elapsedMs (ticks w) = (1000 * Z.of_nat n)%Z /\
    timerArmed w = true /\ isExporting w = true /\ inFlight w = [] /\
    downloadCalls w = 0 /\ alerts w = [] /\ consoleErrors w = [] /\
    step w Tick = Some (tick w).
Proof.
  intros Hst.
  destruct (poll_rounds_from resp_status n onSuccess Hst eq_refl eq_refl)
    as (w & Hrun & Ht & Ha & Hi & He & _ & Hc & _ & Hal & Hce).
  exists w. simpl in Ht. subst n.
  repeat split; try assumption.
  simpl. now rewrite Ha.
Qed.

(** When every poll is answered before the next firing, the first
    [COMPLETED] answer clears the timer and calls the download once; by
    [run_timer_off] no poll follows it. *)
Lemma sequential_polls_download_once (n : nat) :
  token_truthy (getAuthToken localStorage) = true ->
  exists w : watcher,
    run onSuccess
        (Samples.poll_rounds (Responded (Samples.job_status "PROCESSING")) 0 n
           ++ [Tick; StatusResponse n (Responded (Samples.job_status "COMPLETED"))])
    = Some w /\
    timerArmed w = false /\ isExporting w = false /\
    downloadCalls w = 1 /\ downloading w = 1 /\ alerts w = [].
Proof.
  intros Htoken.
  destruct (poll_rounds_from "PROCESSING" n onSuccess (or_intror eq_refl)
              eq_refl eq_refl)
    as (w & Hrun & Ht & Ha & Hi & He & Hd & Hc & Hf & Hal & Hce).
  simpl in Ht, Hrun. subst n.
  rewrite run_app, Hrun. cbn [mbind option_bind].
  rewrite answered_round, getStatus_job by assumption.
  eexists. split; [reflexivity |].
  unfold ExportWatch.on_status, call_download. simpl.
  rewrite Htoken. simpl. rewrite Hc, Hd, Hal. auto.
Qed.

(** C2, as the code has it.  Every firing of the interval timer issues a
    status request, whether or not earlier ones were answered: [n] firings
    in a row add [n] requests to those pending, and the timer stays armed. *)
Theorem ticks_pile_up (n : nat) (w : watcher) :
  timerArmed w = true ->
  exists w' : watcher,
    run w (replicate n Tick) = Some w' /\
    inFlight w' = (inFlight w ++ seq (ticks w) n)%list /\
    ticks w' = ticks w + n /\
    timerArmed w' = true.
Proof.
  revert w. induction n as [| n IH]; intros w Harmed.
  - exists w. simpl. rewrite app_nil_r, Nat.add_0_r. auto.
  - destruct (IH (tick w) Harmed) as (w' & Hrun & Hin & Ht & Ha).
    exists w'. simpl. rewrite Harmed. simpl in *.
    split; [exact Hrun |]. split; [| split; [lia | exact Ha]].
    rewrite Hin. now rewrite <- app_assoc.
Qed.

(** C8, as the code has it.  A status request that throws (network
    failure, non-success status, body that is not JSON) ends the watch: the
    timer is cleared, the exporting flag reset, the error written to the
    console and nothing else: no alert, no download.  Whatever happens
    afterwards, the timer stays cleared and no further status request is
    issued. *)
Theorem transport_error_is_terminal
    (w : watcher) (r : nat) (resp : @FetchResult Number) (error : exn) :
  r ∈ inFlight w ->
  getStatus resp = Throw error ->
  exists w' : watcher,
    step w (StatusResponse r resp) = Some w' /\
    timerArmed w' = false /\
    isExporting w' = false /\
    consoleErrors w' = (consoleErrors w ++ [error])%list /\
    alerts w' = alerts w /\
    downloadCalls w' = downloadCalls w /\
    forall (evs : list event) (w'' : watcher),
      run w' evs = Some w'' ->
      timerArmed w'' = false /\ ticks w'' = ticks w.
Proof.
  intros Hin Hthrow.
  exists (catch (set_inFlight (remove r (inFlight w)) w) error).
  split.
  { simpl. rewrite bool_decide_eq_true_2 by assumption. now rewrite Hthrow. }
  repeat (split; [reflexivity |]).
  intros evs w'' Hrun.
  now apply run_timer_off in Hrun.
Qed.
End Watch.

Section Runs.
(** The sample session: a token is stored and the export is [e1]. *)
Local Abbreviation run := (run Samples.is_zero Samples.show Samples.session "e1").
Local Abbreviation step := (step Samples.is_zero Samples.show Samples.session "e1").
Local Abbreviation getStatus resp :=
  (getStatus Samples.is_zero Samples.show (fun _ => resp) Samples.session "e1").

(** C4 at a sample: sixty-one seconds of [PROCESSING]. *)
Lemma polling_has_no_timeout_witness :
  exists w : watcher,
    run onSuccess
        (Samples.poll_rounds (Responded (Samples.job_status "PROCESSING")) 0 61)
    = Some w /\
    elapsedMs (ticks w) = 61000%Z /\
    timerArmed w = true /\
    step w Tick = Some (tick w).
Proof.
  destruct (polling_has_no_timeout Samples.is_zero Samples.show Samples.session
              "e1" "PROCESSING" 61 (or_intror eq_refl))
    as (w & Hrun & Hms & Ha & _ & _ & _ & _ & _ & Hnext).
  exists w. repeat split; assumption.
Defined.

(** C2 at a sample: three firings right after the export was created. *)
Lemma ticks_pile_up_witness :
  timerArmed onSuccess = true /\
  exists w' : watcher,
    run onSuccess [Tick; Tick; Tick] = Some w' /\
    inFlight w' = [0; 1; 2].
Proof.
  split; [reflexivity |].
  destruct (ticks_pile_up Samples.is_zero Samples.show Samples.session "e1"
              3 onSuccess eq_refl) as (w' & Hrun & Hin & _).
  exists w'. split; assumption.
Defined.

(** C2 as stated fails: when the first response takes more than a second,
    the second firing finds request 0 unanswered and issues request 1 all
    the same. *)
Lemma two_status_requests_pending :
  (run onSuccess [Tick; Tick] ≫= fun w => Some (inFlight w)) = Some [0; 1].
Proof. reflexivity. Qed.

(** C8 at a sample: the network fails under the first status request. *)
Lemma transport_error_is_terminal_witness :
  exists w' : watcher,
    step (tick onSuccess) (StatusResponse 0 NetworkFailure) = Some w' /\
    timerArmed w' = false /\
    consoleErrors w' = [TypeError "Failed to fetch"] /\
    alerts w' = [].
Proof.
  destruct (transport_error_is_terminal Samples.is_zero Samples.show
              Samples.session "e1" (tick onSuccess) 0 NetworkFailure
              (TypeError "Failed to fetch"))
    as (w' & Hstep & Ha & _ & Hce & Hal & _).
  - simpl. apply list_elem_of_here.
  - reflexivity.
  - exists w'. repeat split; assumption.
Defined.

(** C8 as stated fails: a failed job raises the alert, a failed status
    request writes to the console and alerts nobody. *)
Lemma transport_error_raises_no_alert :
  (run onSuccess [Tick; StatusResponse 0 (Responded (Samples.job_status "FAILED"))]
     ≫= fun w => Some (alerts w, consoleErrors w))
  = Some (["Export failed. Please try again."], []) /\
  (run onSuccess [Tick; StatusResponse 0 NetworkFailure]
     ≫= fun w => Some (alerts w, consoleErrors w))
  = Some ([], [TypeError "Failed to fetch"]).
Proof. split; vm_compute; reflexivity. Qed.

(** C1 on the code.  Two status requests overlap (the first answer takes
    more than a second) and both come back [COMPLETED]: the timer is cleared
    by the first, yet the second callback calls the download as well, and
    two files are saved for the one export. *)
Lemma overlapping_polls_download_twice :
  (run onSuccess
       [Tick; Tick;
        StatusResponse 0 (Responded (Samples.job_status "COMPLETED"));
        StatusResponse 1 (Responded (Samples.job_status "COMPLETED"));
        DownloadResponse (Responded Samples.file);
        DownloadResponse (Responded Samples.file)]
     ≫= fun w => Some (timerArmed w, downloadCalls w, filesSaved w))
  = Some (false, 2, 2).
Proof. vm_compute; reflexivity. Qed.
End Runs.

End ExportWatchFacts.

(** ** More on the API client: the request sent, when a call resolves *)

Module ApiRequestFacts.
Import Js Api.

Section Client.
Context {Number : Type}.
Variable number_is_zero : Number -> bool.
Variable number_to_string : Number -> string.
Variable fetch : Request -> @FetchResult Number.
Variable localStorage : gmap string string.

Local Abbreviation apiRequest :=
  (apiRequest number_is_zero number_to_string fetch localStorage).
Local Abbreviation download :=
  (download number_is_zero number_to_string fetch localStorage).
Local Abbreviation request_of := (request_of localStorage).

Lemma token_truthy_stored (token : string) :
  localStorage !! "token" = Some token -> token <> "" ->
  token_truthy (getAuthToken localStorage) = true.
Proof.
  intros Hls Hne. unfold getAuthToken. rewrite Hls. simpl.
  now destruct (String.eqb_spec token "").
Qed.

(** X1.  With a non-empty token in the storage every request of
    [apiRequest] carries [Authorization: Bearer <token>], also when the
    caller passed an [Authorization] header of its own. *)
Theorem bearer_token_overrides_caller
    (endpoint : string) (options : RequestInit) (token : string) :
  localStorage !! "token" = Some token ->
  token <> "" ->
  req_headers (request_of endpoint options) !! "Authorization"
  = Some ("Bearer " ++ token).
Proof.
  intros Hls Hne. unfold Api.request_of.
  rewrite (token_truthy_stored token Hls Hne). simpl.
  rewrite lookup_insert_eq. unfold getAuthToken. now rewrite Hls.
Qed.

(** X2.  The caller's headers are sent as given; [Content-Type] is
    [application/json] only when the caller gave none; nothing else is
    added.  This covers every header but [Authorization], and
    [Authorization] too when no usable token is stored. *)
Theorem caller_headers_are_kept
    (endpoint : string) (options : RequestInit) (k : string) :
  k <> "Authorization" \/ token_truthy (getAuthToken localStorage) = false ->
  req_headers (request_of endpoint options) !! k
  = match headers options ≫= (.!! k) with
    | Some v => Some v
    | None => if String.eqb k "Content-Type" then Some "application/json" else None
    end.
Proof.
  intros Hk. unfold Api.request_of.
  assert (Hbase :
    (default ∅ (headers options) ∪ {[ "Content-Type" := "application/json" ]}
       : gmap string string) !! k
    = match headers options ≫= (.!! k) with
      | Some v => Some v
      | None => if String.eqb k "Content-Type" then Some "application/json" else None
      end).
  { rewrite lookup_union.
    destruct (headers options) as [h |]; simpl.
    - destruct (h !! k) as [v |] eqn:Hv; simpl.
      + now destruct ({[ "Content-Type" := "application/json" ]} !! k).
      + rewrite (left_id None _).
        destruct (String.eqb_spec k "Content-Type") as [-> | Hne].
        * apply lookup_singleton_eq.
        * now apply lookup_singleton_ne.
    - rewrite lookup_empty, (left_id None _).
      destruct (String.eqb_spec k "Content-Type") as [-> | Hne].
      + apply lookup_singleton_eq.
      + now apply lookup_singleton_ne. }
  destruct (token_truthy (getAuthToken localStorage)) eqn:Ht.
  - destruct Hk as [Hk | Hk]; [| discriminate].
    simpl. rewrite lookup_insert_ne by congruence. exact Hbase.
  - exact Hbase.
Qed.

(** X3.  [apiRequest] resolves only when a response arrived, and for a
    non-binary request only when that response had a success status and a
    JSON body other than [null]; what it resolves with is then the [data]
    property of the body, whatever else the body holds. *)
Theorem apiRequest_resolves_only_on_success
    (endpoint : string) (options : RequestInit) (p : @Payload Number) :
  apiRequest endpoint options = Return p ->
  exists r : @Response Number,
    fetch (request_of endpoint options) = Responded r /\
    ((wants_octet_stream options = true /\ p = Blob (blob r)) \/
     (wants_octet_stream options = false /\ ok r = true /\
      exists data : json Number,
        parsed r = Some data /\ data <> JNull /\
        p = Data (get_prop data "data"))).
Proof.
  unfold Api.apiRequest. intros H.
  destruct (fetch (request_of endpoint options)) as [| r]; [discriminate |].
  exists r. split; [reflexivity |].
  destruct (wants_octet_stream options).
  - left. split; [reflexivity | congruence].
  - right. split; [reflexivity |].
    destruct (parsed r) as [data |]; [| discriminate].
    destruct (ok r); simpl in H.
    + split; [reflexivity |]. exists data.
      destruct data; try discriminate;
        (split; [reflexivity | split; [discriminate | congruence]]).
    + destruct data; discriminate.
Qed.

(** X5.  Without a usable token [exportApi.download] throws "Not
    authenticated" whatever the network would answer. *)
Theorem download_needs_token (exportId : string) :
  token_truthy (getAuthToken localStorage) = false ->
  download exportId = Throw (Error "Not authenticated").
Proof.
  unfold Api.download, getAuthToken. intros H.
  destruct (localStorage !! "token") as [token |]; [| reflexivity].
  simpl in H. now rewrite H.
Qed.

End Client.

Section Envelope.
Context {Number : Type}.
Variable number_is_zero : Number -> bool.
Variable number_to_string : Number -> string.
Variable localStorage : gmap string string.

(** X4.  The [success] property of the envelope is never read: two
    responses that differ in it alone give the same outcome, the status of
    the response decides. *)
Theorem success_flag_is_ignored
    (endpoint : string) (options : RequestInit)
    (ok_ : bool) (status_ : Z) (blob_ : string)
    (env : gmap string (json Number)) (flag : json Number) :
  apiRequest number_is_zero number_to_string
    (fun _ => Responded {| ok := ok_; status := status_; blob := blob_;
                           parsed := Some (JObject (<[ "success" := flag ]> env)) |})
    localStorage endpoint options
  = apiRequest number_is_zero number_to_string
      (fun _ => Responded {| ok := ok_; status := status_; blob := blob_;
                             parsed := Some (JObject env) |})
      localStorage endpoint options.
Proof.
  unfold apiRequest. simpl.
  destruct (wants_octet_stream options); [reflexivity |].
  destruct ok_; simpl.
  - now rewrite lookup_insert_ne by discriminate.
  - unfold message_or. simpl. now rewrite lookup_insert_ne by discriminate.
Qed.
End Envelope.

(** X1 at a sample: the caller's basic credentials give way to the token. *)
Lemma bearer_token_overrides_caller_witness :
  req_headers
    (request_of Samples.session "/projects"
       {| method := None; body := None;
          headers := Some {[ "Authorization" := "Basic abc" ]} |})
  !! "Authorization" = Some "Bearer jwt".
Proof.
  apply (bearer_token_overrides_caller Samples.session "/projects"
           {| method := None; body := None;
              headers := Some {[ "Authorization" := "Basic abc" ]} |} "jwt");
    [reflexivity | discriminate].
Defined.

(** X2 at a sample: the [Accept] header of a binary request. *)
Lemma caller_headers_are_kept_witness :
  req_headers (request_of Samples.session "/exports/e1/download"
                 Samples.octet_stream) !! "Accept"
  = Some "application/octet-stream".
Proof.
  apply (caller_headers_are_kept Samples.session "/exports/e1/download"
           Samples.octet_stream "Accept").
  left. discriminate.
Defined.

(** X3 at a sample: a status read that resolves. *)
Lemma apiRequest_resolves_only_on_success_witness :
  exists r : @Response Z,
    Responded (Samples.job_status "PROCESSING") = Responded r /\ ok r = true.
Proof.
  destruct (apiRequest_resolves_only_on_success Samples.is_zero Samples.show
              (fun _ => Responded (Samples.job_status "PROCESSING"))
              Samples.session "/exports/e1" no_options
              (Data (Some (JObject {[ "id" := JString "e1";
                                      "status" := JString "PROCESSING" ]})))
              eq_refl)
    as (r & Hr & [[Hb _] | (_ & Hok & _)]).
  - discriminate Hb.
  - exists r. split; assumption.
Defined.

(** X5 at a sample: an empty storage. *)
Lemma download_needs_token_witness :
  download Samples.is_zero Samples.show
    (fun _ => Responded Samples.file) ∅ "e1"
  = Throw (Error "Not authenticated").
Proof.
  apply (download_needs_token Samples.is_zero Samples.show
           (fun _ => Responded Samples.file) ∅ "e1").
  reflexivity.
Defined.


End ApiRequestFacts.

(** ** More on the optimistic task update *)

Module MutationFacts.
Import Cache CacheFacts TaskUpdate.

(** An update that does not set [id] leaves the ids as they are. *)
Lemma has_id_spread (taskId : string) (task : Task) (data : UpdateTaskData) :
  data !! "id" = None ->
  has_id taskId (spread task data) = has_id taskId task.
Proof.
  intros Hd. unfold has_id. now rewrite TaskUpdateFacts.lookup_spread, Hd.
Qed.

Lemma spread_twice (task : Task) (data : UpdateTaskData) :
  spread (spread task data) data = spread task data.
Proof.
  unfold spread. now rewrite (assoc_L (∪)), (idemp_L (∪)).
Qed.

(** The updater only rewrites the task list. *)
Lemma patch_some (taskId : string) (data : UpdateTaskData) (old : ProjectDetail)
    (f : Task -> Task) :
  (forall task, task ∈ tasks old ->
     (if has_id taskId task then spread task data else task) = f task) ->
  patch taskId data (Some old)
  = Some {| project_id := project_id old; project_name := project_name old;
            project_description := project_description old;
            ownerId := ownerId old; createdAt := createdAt old;
            tasks := map f (tasks old) |}.
Proof.
  intros Hf. simpl. do 2 f_equal.
  apply map_ext_in. intros task Hin. apply Hf. now apply list_elem_of_In.
Qed.

(** X9.  An update for an id no task of the cached project has changes
    nothing in the project. *)
Theorem patch_unknown_task_is_noop
    (taskId : string) (data : UpdateTaskData) (old : ProjectDetail) :
  Forall (fun task => has_id taskId task = false) (tasks old) ->
  patch taskId data (Some old) = Some old.
Proof.
  intros Hno. rewrite (patch_some taskId data old (fun task => task)).
  - rewrite map_id. now destruct old.
  - intros task Hin. rewrite Forall_forall in Hno. now rewrite (Hno task Hin).
Qed.

(** X10.  Patching twice with the same update is patching once, as long as
    the update does not set [id]. *)
Theorem patch_is_idempotent
    (taskId : string) (data : UpdateTaskData) (old : option ProjectDetail) :
  data !! "id" = None ->
  patch taskId data (patch taskId data old) = patch taskId data old.
Proof.
  intros Hd. destruct old as [old |]; [| reflexivity].
  simpl. do 2 f_equal. rewrite map_map. apply map_ext. intros task.
  cbv beta. destruct (has_id taskId task) eqn:Hid.
  - rewrite has_id_spread by assumption. now rewrite Hid, spread_twice.
  - now rewrite Hid.
Qed.

Lemma has_id_exclusive (t1 t2 : string) (task : Task) :
  t1 <> t2 -> has_id t1 task = true -> has_id t2 task = false.
Proof.
  unfold has_id. intros Hne H1.
  destruct (task !! "id") as [[| | s |] |]; try discriminate.
  apply String.eqb_eq in H1. subst s. now apply String.eqb_neq.
Qed.

(** X11.  Updates of two different tasks can be patched in either order,
    as long as neither sets [id]. *)
Theorem patches_of_different_tasks_commute
    (t1 t2 : string) (d1 d2 : UpdateTaskData) (old : option ProjectDetail) :
  t1 <> t2 ->
  d1 !! "id" = None ->
  d2 !! "id" = None ->
  patch t1 d1 (patch t2 d2 old) = patch t2 d2 (patch t1 d1 old).
Proof.
  intros Hne H1 H2. destruct old as [old |]; [| reflexivity].
  simpl. do 2 f_equal. rewrite !map_map. apply map_ext. intros task.
  cbv beta.
  assert (Hex : has_id t1 task = true -> has_id t2 task = false)
    by now apply has_id_exclusive.
  destruct (has_id t1 task) eqn:Hid1, (has_id t2 task) eqn:Hid2; cbv iota;
    rewrite ?has_id_spread, ?Hid1, ?Hid2 by assumption; try reflexivity.
  now specialize (Hex eq_refl).
Qed.

Section Page.
Variable id : string.

Local Abbreviation key := (key id).

(** X7.  An update of a cached project that fails with no other update in
    between leaves the project data as it was before the update, the list
    of outstanding updates as it was, and the project query invalidated. *)
Theorem failed_update_round_trip
    (s : state) (m : nat) (taskId : string) (data : UpdateTaskData)
    (old : ProjectDetail) :
  pending s !! m = None ->
  getQueryData (cache s) key = Some old ->
  exists s' : state,
    lifecycle_run id s [Mutate m taskId data; Resolved m false] = Some s' /\
    getQueryData (cache s') key = Some old /\
    pending s' = pending s /\
    forall q, cache s' !! key = Some q -> isInvalidated q = true.
Proof.
  intros Hm Hold.
  destruct (patch taskId data (Some old)) as [new |] eqn:Hpatch; [| discriminate].
  eexists. split.
  { simpl. rewrite Hm. unfold onMutate, cancelQueries. simpl.
    rewrite lookup_insert_eq. reflexivity. }
  simpl. rewrite Hold.
  split; [| split; [now apply delete_insert_id |]].
  - unfold resolved, onSettled. rewrite getQueryData_invalidateQueries.
    simpl. apply getQueryData_setQueryValue.
  - intros q. unfold resolved, onSettled.
    rewrite lookup_invalidateQueries_same.
    destruct (_ !! key); simpl; [| discriminate]. now intros [= <-].
Qed.

(** X8.  When the server call of an update succeeds, the cache keeps
    serving what it served: the optimistic data stays in place, under every
    key, until a refetch replaces it. *)
Theorem successful_update_keeps_data
    (s : state) (m : nat) (context : Context) :
  pending s !! m = Some context ->
  exists s' : state,
    lifecycle_step id s (Resolved m true) = Some s' /\
    forall k : list string,
      getQueryData (cache s') k = getQueryData (cache s) k.
Proof.
  intros Hm. eexists. split; [simpl; rewrite Hm; reflexivity |].
  intros k. simpl. unfold resolved, onSettled.
  apply getQueryData_invalidateQueries.
Qed.
End Page.

(** X9 at a sample: no task of the sample project has id [t9]. *)
Lemma patch_unknown_task_is_noop_witness :
  patch "t9" Samples.mark_done (Some Samples.alpha) = Some Samples.alpha.
Proof.
  apply (patch_unknown_task_is_noop "t9" Samples.mark_done Samples.alpha).
  repeat constructor.
Defined.

(** X10 at a sample: marking the report done twice. *)
Lemma patch_is_idempotent_witness :
  patch "t1" Samples.mark_done (patch "t1" Samples.mark_done (Some Samples.alpha))
  = patch "t1" Samples.mark_done (Some Samples.alpha).
Proof.
  apply (patch_is_idempotent "t1" Samples.mark_done (Some Samples.alpha)).
  reflexivity.
Defined.

(** X11 at a sample: marking the report done and retitling the release. *)
Lemma patches_of_different_tasks_commute_witness :
  patch "t1" Samples.mark_done (patch "t2" Samples.retitle (Some Samples.alpha))
  = patch "t2" Samples.retitle (patch "t1" Samples.mark_done (Some Samples.alpha)).
Proof.
  apply (patches_of_different_tasks_commute "t1" "t2" Samples.mark_done
           Samples.retitle (Some Samples.alpha));
    [discriminate | reflexivity | reflexivity].
Defined.

(** X7 at a sample: marking the report done fails. *)
Lemma failed_update_round_trip_witness :
  exists s' : state,
    lifecycle_run "p1" {| cache := Samples.loaded; pending := ∅ |}
      [Mutate 0 "t1" Samples.mark_done; Resolved 0 false] = Some s' /\
    getQueryData (cache s') (key "p1") = Some Samples.alpha /\
    pending s' = ∅.
Proof.
  destruct (failed_update_round_trip "p1"
              {| cache := Samples.loaded; pending := ∅ |} 0 "t1"
              Samples.mark_done Samples.alpha)
    as (s' & Hrun & Hread & Hpending & _);
    [reflexivity | vm_compute; reflexivity |].
  exists s'. repeat split; assumption.
Defined.

(** X8 at a sample: an outstanding update of the loaded project succeeds. *)
Lemma successful_update_keeps_data_witness :
  exists s' : state,
    lifecycle_step "p1"
      {| cache := Samples.loaded;
         pending := {[ 0 := {| previousProject := None |} ]} |}
      (Resolved 0 true) = Some s' /\
    getQueryData (cache s') (key "p1") = Some Samples.alpha.
Proof.
  destruct (successful_update_keeps_data "p1"
              {| cache := Samples.loaded;
                 pending := {[ 0 := {| previousProject := None |} ]} |}
              0 {| previousProject := None |})
    as (s' & Hstep & Hread); [vm_compute; reflexivity |].
  exists s'. split; [exact Hstep |].
  rewrite Hread. vm_compute; reflexivity.
Defined.

End MutationFacts.

(** ** The task list of the project page: filter and inline edit *)

Module ProjectPageFacts.
Import Cache CacheFacts TaskUpdate ProjectPage.

Lemma has_status_exclusive (a b : string) (task : Task) :
  a <> b -> has_status a task = true -> has_status b task = false.
Proof.
  unfold has_status. intros Hne Ha.
  destruct (task !! "status") as [[| | s |] |]; try discriminate.
  apply String.eqb_eq in Ha. subst s. now apply String.eqb_neq.
Qed.

Lemma elem_of_filteredTasks (project : ProjectDetail) (f : StatusFilter)
    (task : Task) :
  task ∈ filteredTasks (Some project) f <->
  task ∈ tasks project /\
  (f = ALL \/ has_status (filter_value f) task = true).
Proof.
  unfold filteredTasks. rewrite !list_elem_of_In, filter_In.
  destruct f; intuition (try discriminate; auto).
Qed.

Lemma has_status_iff (st : string) (task : Task) :
  has_status st task = true <-> task !! "status" = Some (Str st).
Proof.
  unfold has_status.
  destruct (task !! "status") as [[| | s |] |]; split; try discriminate.
  - intros H. apply String.eqb_eq in H. now subst.
  - intros [= ->]. apply String.eqb_refl.
Qed.

(** X12.  Whatever the filter, the list shown is the task list of the
    project with some tasks left out: same order, nothing added or doubled.
    A task is shown exactly when the filter is [ALL] or its [status] is the
    string of the filter; a task without status, or with a status that is
    not a string, shows under [ALL] alone. *)
Theorem filteredTasks_selects_by_status
    (project : ProjectDetail) (f : StatusFilter) :
  filteredTasks (Some project) f `sublist_of` tasks project /\
  forall task : Task,
    task ∈ filteredTasks (Some project) f <->
    task ∈ tasks project /\
    (f = ALL \/ task !! "status" = Some (Str (filter_value f))).
Proof.
  split.
  - unfold filteredTasks. induction (tasks project) as [| task l IH]; simpl.
    + constructor.
    + destruct (match f with ALL => true | _ => _ end).
      * now apply sublist_skip.
      * now apply sublist_cons.
  - intros task. rewrite elem_of_filteredTasks, has_status_iff. reflexivity.
Qed.

(** X13.  When every task has one of the three statuses, the three status
    filters split the task list: their lengths add up to the length of the
    list shown under [ALL], which is the whole task list. *)
Theorem status_filters_partition (project : ProjectDetail) :
  Forall (fun task => has_status "TODO" task || has_status "IN_PROGRESS" task
                      || has_status "DONE" task = true) (tasks project) ->
  filteredTasks (Some project) ALL = tasks project /\
  length (filteredTasks (Some project) TODO)
  + length (filteredTasks (Some project) IN_PROGRESS)
  + length (filteredTasks (Some project) DONE)
  = length (tasks project).
Proof.
  unfold filteredTasks. simpl filter_value.
  induction 1 as [| task l Hk _ [IHa IHl]]; [split; reflexivity |].
  split; [simpl; now rewrite IHa |].
  simpl.
  destruct (has_status "TODO" task) eqn:Ht.
  - rewrite (has_status_exclusive "TODO" "IN_PROGRESS" task), 
      (has_status_exclusive "TODO" "DONE" task) by (discriminate || assumption).
    simpl. lia.
  - destruct (has_status "IN_PROGRESS" task) eqn:Hp.
    + rewrite (has_status_exclusive "IN_PROGRESS" "DONE" task)
        by (discriminate || assumption).
      simpl. lia.
    + simpl in Hk. rewrite Hk. simpl. lia.
Qed.

Section Page.
Variable id : string.

Local Abbreviation key := (key id).

(** X14.  After [handleStatusChange] has patched the cache, a task with
    the changed id shows under [ALL] and under the filter of the new status
    and nowhere else; every task of the project with that id does show
    there, patched; and the tasks with another id show under the same
    filters as before. *)
Theorem status_change_moves_task
    (c : gmap (list string) (Query ProjectDetail))
    (taskId newStatus : string) (f : StatusFilter) (old : ProjectDetail) :
  getQueryData c key = Some old ->
  let shown :=
    filteredTasks
      (getQueryData
         (onMutate id c (handleStatusChange taskId newStatus).1
                        (handleStatusChange taskId newStatus).2).1 key) f in
  (forall task, task ∈ shown -> has_id taskId task = true ->
                f = ALL \/ filter_value f = newStatus) /\
  (forall task, task ∈ tasks old -> has_id taskId task = true ->
                f = ALL \/ filter_value f = newStatus ->
                spread task {[ "status" := Str newStatus ]} ∈ shown) /\
  (forall task, has_id taskId task = false ->
                task ∈ shown <-> task ∈ filteredTasks (Some old) f).
Proof.
  intros Hold shown.
  assert (Hshown : shown = filteredTasks (patch taskId {[ "status" := Str newStatus ]}
                                                 (Some old)) f).
  { subst shown. f_equal. unfold onMutate, cancelQueries. simpl.
    apply getQueryData_setQueryData. now rewrite Hold. }
  rewrite Hshown. clear Hshown shown.
  set (data := ({[ "status" := Str newStatus ]} : UpdateTaskData)).
  assert (Hnoid : data !! "id" = None) by reflexivity.
  assert (Hst : forall task, has_status (filter_value f) (spread task data) = true
                             <-> filter_value f = newStatus).
  { intros task. rewrite has_status_iff, TaskUpdateFacts.lookup_spread.
    subst data. rewrite lookup_singleton_eq. split; [now intros [= ->] | now intros ->]. }
  simpl patch. repeat split.
  - intros task Hin Hid.
    apply elem_of_filteredTasks in Hin as [Hin Hf]. simpl in Hin.
    destruct Hf as [Hf | Hf]; [now left |]. right.
    apply list_elem_of_fmap in Hin as (t0 & -> & Hin0).
    destruct (has_id taskId t0) eqn:Hid0; [now apply (Hst t0) |].
    congruence.
  - intros task Hin Hid Hf.
    apply elem_of_filteredTasks. split.
    + simpl. apply list_elem_of_fmap. exists task. now rewrite Hid.
    + destruct Hf as [Hf | Hf]; [now left |]. right. now apply Hst.
  - intros Hin. apply elem_of_filteredTasks in Hin as [Hin Hf]. simpl in Hin.
    apply list_elem_of_fmap in Hin as (t0 & -> & Hin0).
    destruct (has_id taskId t0) eqn:Hid0.
    + rewrite MutationFacts.has_id_spread in H by assumption. congruence.
    + now apply elem_of_filteredTasks.
  - intros Hin. apply elem_of_filteredTasks in Hin as [Hin Hf].
    apply elem_of_filteredTasks. split; [| exact Hf].
    simpl. apply list_elem_of_fmap. exists task. now rewrite H.
Qed.
End Page.

(** X15.  Opening the edit form on a task and saving it untouched patches
    the task as follows: [title] and [priority] are written back as read, a
    [description] that is a non-empty string is written back as it is while
    any other description (missing, [null], empty) becomes [undefined], and
    no other property is touched.  The form is closed afterwards. *)
Theorem untouched_edit_patch (task : Task) (taskId : string) :
  let '((taskId', data), form') := handleEditSave (handleEditStart task) taskId in
  taskId' = taskId /\
  editingTaskId form' = Null /\
  spread task data !! "title" = Some (read task "title") /\
  spread task data !! "priority" = Some (read task "priority") /\
  spread task data !! "description"
  = Some (if truthy_field (read task "description")
          then read task "description" else Undefined) /\
  forall k : string,
    k <> "title" -> k <> "description" -> k <> "priority" ->
    spread task data !! k = task !! k.
Proof.
  simpl. repeat split.
  - now rewrite TaskUpdateFacts.lookup_spread.
  - now rewrite TaskUpdateFacts.lookup_spread.
  - rewrite TaskUpdateFacts.lookup_spread.
    replace (({[ "title" := read task "title";
                 "description" := or_else (or_else (read task "description") (Str ""))
                                          Undefined;
                 "priority" := read task "priority" ]} : UpdateTaskData)
               !! "description")
      with (Some (or_else (or_else (read task "description") (Str "")) Undefined))
      by reflexivity.
    f_equal. unfold or_else.
    destruct (truthy_field (read task "description")) eqn:Ht; [now rewrite Ht |].
    reflexivity.
  - intros k Ht Hd Hp. rewrite TaskUpdateFacts.lookup_spread.
    now rewrite !lookup_insert_ne, lookup_singleton_ne by congruence.
Qed.

(** X16.  For a task that has a title, a priority and a non-empty
    description, saving the untouched edit form changes nothing. *)
Theorem untouched_edit_is_noop (task : Task) (taskId d : string) :
  is_Some (task !! "title") ->
  is_Some (task !! "priority") ->
  task !! "description" = Some (Str d) ->
  d <> "" ->
  spread task (handleEditSave (handleEditStart task) taskId).1.2 = task.
Proof.
  intros [t Ht] [p Hp] Hd Hne. apply map_eq. intros k.
  rewrite TaskUpdateFacts.lookup_spread. simpl. unfold read.
  rewrite Ht, Hp, Hd. simpl. unfold or_else. simpl.
  destruct (String.eqb_spec d "") as [? | _]; [contradiction |]. simpl.
  destruct (String.eqb_spec d "") as [? | _]; [contradiction |]. simpl.
  destruct (decide (k = "title")) as [-> | ?];
    [now rewrite lookup_insert_eq |].
  rewrite lookup_insert_ne by congruence.
  destruct (decide (k = "description")) as [-> | ?];
    [now rewrite lookup_insert_eq |].
  rewrite lookup_insert_ne by congruence.
  destruct (decide (k = "priority")) as [-> | ?];
    [now rewrite lookup_singleton_eq |].
  now rewrite lookup_singleton_ne by congruence.
Qed.

(** X13 at a sample: one task to do, one in progress. *)
Lemma status_filters_partition_witness :
  length (filteredTasks (Some Samples.alpha) TODO)
  + length (filteredTasks (Some Samples.alpha) IN_PROGRESS)
  + length (filteredTasks (Some Samples.alpha) DONE)
  = 2.
Proof.
  destruct (status_filters_partition Samples.alpha) as [_ H];
    [repeat constructor | exact H].
Defined.

(** X14 at a sample: the report is marked done and shows, patched, under
    [DONE]. *)
Lemma status_change_moves_task_witness :
  spread Samples.report {[ "status" := Str "DONE" ]}
  ∈ filteredTasks
      (getQueryData
         (onMutate "p1" Samples.loaded
            (handleStatusChange "t1" "DONE").1
            (handleStatusChange "t1" "DONE").2).1 (key "p1")) DONE.
Proof.
  destruct (status_change_moves_task "p1" Samples.loaded "t1" "DONE" DONE
              Samples.alpha) as (_ & Hshown & _); [vm_compute; reflexivity |].
  apply (Hshown Samples.report);
    [apply list_elem_of_here | reflexivity | right; reflexivity].
Defined.

(** X16 at a sample: a task with all three edited properties. *)
Lemma untouched_edit_is_noop_witness :
  spread Samples.review
         (handleEditSave (handleEditStart Samples.review) "t3").1.2
  = Samples.review.
Proof.
  apply (untouched_edit_is_noop Samples.review "t3" "Second pass");
    [eexists; reflexivity | eexists; reflexivity | reflexivity | discriminate].
Defined.

End ProjectPageFacts.

(** ** Which queries the pages invalidate, and logout *)

Module PagesFacts.
Import Cache CacheFacts Api.

Lemma project_key_not_prefix_of_list (id : string) :
  ~ TaskUpdate.key id `prefix_of` Dashboard.projects_key.
Proof. intros [k Hk]. discriminate Hk. Qed.

Lemma list_key_not_prefix_of_project (rest : list string) :
  ~ Dashboard.projects_key `prefix_of` "project" :: rest.
Proof. intros [k Hk]. discriminate Hk. Qed.

Section Invalidation.
Context {T : Type}.
Implicit Types (c : gmap (list string) (Query T)).

(** X17.  A created or deleted task invalidates the query of its project
    and every query below that key; the data of every query stays in place,
    and the query of the project list is left exactly as it was, so it is
    not marked for a refetch.  Creating a task also resets and hides the
    new-task form. *)
Theorem task_mutations_invalidate_project_only
    (id : string) (c : gmap (list string) (Query T))
    (form : ProjectPage.NewTaskForm) :
  let c' := (ProjectPage.createTask_onSuccess id c form).1 in
  ProjectPage.deleteTask_onSuccess id c = c' /\
  (forall k, getQueryData c' k = getQueryData c k) /\
  (forall rest, c' !! (TaskUpdate.key id ++ rest)%list
                = invalidate <$> c !! (TaskUpdate.key id ++ rest)%list) /\
  c' !! Dashboard.projects_key = c !! Dashboard.projects_key /\
  (ProjectPage.createTask_onSuccess id c form).2
  = {| ProjectPage.showNewTaskForm := false; ProjectPage.newTaskTitle := "";
       ProjectPage.newTaskDescription := "";
       ProjectPage.newTaskPriority := "MEDIUM" |}.
Proof.
  simpl. split; [reflexivity |].
  split; [intros k; apply getQueryData_invalidateQueries |].
  split; [| split; [| reflexivity]].
  - intros rest. rewrite lookup_invalidateQueries.
    rewrite bool_decide_eq_true_2 by (now exists rest). reflexivity.
  - rewrite lookup_invalidateQueries.
    rewrite bool_decide_eq_false_2 by apply project_key_not_prefix_of_list.
    now destruct (c !! Dashboard.projects_key).
Qed.

(** X18.  A created, renamed or deleted project invalidates the query of
    the project list; the data of every query stays in place, and no query
    of a single project is touched, so an open project page is not marked
    for a refetch. *)
Theorem project_mutations_invalidate_list_only
    (c : gmap (list string) (Query T)) :
  let c' := Dashboard.project_onSuccess c in
  (forall k, getQueryData c' k = getQueryData c k) /\
  c' !! Dashboard.projects_key = invalidate <$> c !! Dashboard.projects_key /\
  (forall rest, c' !! ("project" :: rest) = c !! ("project" :: rest)).
Proof.
  simpl. unfold Dashboard.project_onSuccess.
  split; [intros k; apply getQueryData_invalidateQueries |].
  split; [apply lookup_invalidateQueries_same |].
  intros rest. rewrite lookup_invalidateQueries.
  rewrite bool_decide_eq_false_2 by apply list_key_not_prefix_of_project.
  now destruct (c !! ("project" :: rest)).
Qed.
End Invalidation.

(** X19.  After [handleLogout] the token and the user are gone from the
    storage and nothing else is; the page navigated to is the login page;
    from then on requests carry no bearer token, a download throws "Not
    authenticated" whatever the network would answer, and the route guard
    sends every guarded element to the login page. *)
Theorem logout_drops_credentials (localStorage : gmap string string) :
  let storage := (Dashboard.handleLogout localStorage).1 in
  (Dashboard.handleLogout localStorage).2 = "/login" /\
  storage !! "token" = None /\
  storage !! "user" = None /\
  (forall k, k <> "token" -> k <> "user" -> storage !! k = localStorage !! k) /\
  (forall endpoint options,
     req_headers (request_of storage endpoint options) !! "Authorization"
     = headers options ≫= (.!! "Authorization")) /\
  (forall (Number : Type) (is_zero : Number -> bool) (show : Number -> string)
          (fetch : Request -> @FetchResult Number) (exportId : string),
     download is_zero show fetch storage exportId
     = Js.Throw (Js.Error "Not authenticated")) /\
  (forall children, App.ProtectedRoute storage children = App.Navigate "/login").
Proof.
  simpl.
  assert (Htoken : delete "user" (delete "token" localStorage) !! "token" = None).
  { rewrite lookup_delete_ne by discriminate. apply lookup_delete_eq. }
  split; [reflexivity |]. split; [exact Htoken |].
  split; [apply lookup_delete_eq |].
  split.
  { intros k H1 H2. now rewrite !lookup_delete_ne by congruence. }
  split.
  { intros endpoint options. unfold request_of, getAuthToken.
    rewrite Htoken. simpl. rewrite lookup_union.
    destruct (headers options) as [h |]; simpl.
    - rewrite lookup_singleton_ne by discriminate.
      now destruct (h !! "Authorization").
    - now rewrite lookup_empty, lookup_singleton_ne by discriminate. }
  split.
  { intros. unfold download, getAuthToken. now rewrite Htoken. }
  intros children. unfold App.ProtectedRoute. now rewrite Htoken.
Qed.

End PagesFacts.

(** ** The route table *)

Module AppFacts.
Import Api App.

(** X20.  The dashboard and the project page are rendered only with a
    non-empty token in the storage. *)
Theorem guarded_pages_need_token
    (localStorage : gmap string string) (r : route) (p : page) :
  route_element localStorage r = Render p ->
  p = DashboardPage \/ (exists id, p = ProjectDetailPage id) ->
  exists token : string, localStorage !! "token" = Some token /\ token <> "".
Proof.
  intros Hr Hp.
  assert (Ht : token_truthy (localStorage !! "token") = true).
  { destruct r; simpl in Hr; unfold ProtectedRoute in Hr;
      destruct (token_truthy (localStorage !! "token")); simpl in Hr;
      try reflexivity; try discriminate;
      injection Hr as <-; destruct Hp as [Hp | [i Hp]]; discriminate. }
  destruct (localStorage !! "token") as [token |]; [| discriminate].
  exists token. split; [reflexivity |].
  simpl in Ht. intros ->. discriminate.
Qed.

(** X21.  Every route comes to rest on a page after at most two
    navigations.  Without a token that page is the login page, or the
    register page for the register route; with a token each route shows its
    own page, the root and every unknown path showing the dashboard. *)
Theorem routing_settles (localStorage : gmap string string) (r : route) :
  settle 2 localStorage r
  = Some (if token_truthy (localStorage !! "token")
          then match r with
               | login_route => LoginPage
               | register_route => RegisterPage
               | project_route id => ProjectDetailPage id
               | dashboard_route | root_route | catch_all => DashboardPage
               end
          else match r with
               | register_route => RegisterPage
               | _ => LoginPage
               end).
Proof.
  destruct r; simpl; unfold ProtectedRoute;
    destruct (token_truthy (localStorage !! "token")); reflexivity.
Qed.

(** X20 at a sample: the dashboard with the sample session. *)
Lemma guarded_pages_need_token_witness :
  exists token : string, Samples.session !! "token" = Some token /\ token <> "".
Proof.
  apply (guarded_pages_need_token Samples.session dashboard_route DashboardPage);
    [reflexivity | left; reflexivity].
Defined.

End AppFacts.

(** ** More on the export watcher *)

Module WatcherFacts.
Import Js Api ExportWatch.

Section Watch.
Context {Number : Type}.
Variable number_is_zero : Number -> bool.
Variable number_to_string : Number -> string.
Variable localStorage : gmap string string.
Variable exportId : string.

Local Abbreviation step := (step number_is_zero number_to_string localStorage exportId).
Local Abbreviation run := (run number_is_zero number_to_string localStorage exportId).
Local Abbreviation on_status := (on_status localStorage).
Local Abbreviation call_download := (call_download localStorage).
Local Abbreviation getStatus resp :=
  (getStatus number_is_zero number_to_string (fun _ => resp) localStorage exportId).
Local Abbreviation download resp :=
  (download number_is_zero number_to_string (fun _ => resp) localStorage exportId).

(** What holds of every state the watcher can reach. *)
Local Abbreviation invariant w :=
  ((timerArmed w = true ->
    downloadCalls w = 0 /\ alerts w = [] /\ consoleErrors w = []) /\
   filesSaved w + downloading w <= downloadCalls w /\
   downloadCalls w + length (alerts w) + length (inFlight w) <= ticks w).

Lemma length_remove (r : nat) (l : list nat) :
  r ∈ l -> S (length (remove r l)) <= length l.
Proof.
  unfold remove. induction l as [| x l IH]; intros Hin.
  - now apply not_elem_of_nil in Hin.
  - rewrite filter_cons. destruct (decide (x ≠ r)) as [Hne | Heq]; simpl.
    + apply elem_of_cons in Hin as [-> | Hin]; [contradiction |].
      specialize (IH Hin). lia.
    + pose proof (length_filter (fun y => y ≠ r) l). lia.
Qed.

(** The four ways the callback body can leave the watcher. *)
Lemma on_status_cases (w : watcher) (status : outcome (@Payload Number)) :
  on_status w status = w \/
  (exists error, on_status w status = catch w error) \/
  on_status w status = call_download (setIsExporting false (clearInterval w)) \/
  on_status w status
  = alert "Export failed. Please try again." (setIsExporting false (clearInterval w)).
Proof.
  unfold ExportWatch.on_status. repeat case_match; eauto.
Qed.

Lemma invariant_step (w w' : watcher) (e : event) :
  invariant w -> step w e = Some w' -> invariant w'.
Proof.
  intros (Harmed & Hfiles & Hcalls) Hstep.
  destruct e as [| r resp | resp | exporting]; simpl in Hstep.
  - destruct (timerArmed w) eqn:Ha; [| discriminate]. injection Hstep as <-.
    destruct (Harmed eq_refl) as (H0 & H1 & H2).
    simpl. rewrite length_app, Ha. simpl.
    repeat split; try assumption; lia.
  - case_bool_decide as Hin; [| discriminate]. injection Hstep as <-.
    apply length_remove in Hin.
    destruct (on_status_cases (set_inFlight (remove r (inFlight w)) w)
                (getStatus resp)) as [-> | [[error ->] | [-> | ->]]]; simpl.
    + repeat split; try assumption; try lia; now apply Harmed.
    + repeat split; try discriminate; lia.
    + unfold ExportWatch.call_download. simpl.
      destruct (token_truthy (getAuthToken localStorage)); simpl;
        repeat split; try discriminate; lia.
    + rewrite length_app. simpl. repeat split; try discriminate; lia.
  - destruct (downloading w) as [| n] eqn:Hd; [discriminate |].
    assert (timerArmed w = false) as Hoff.
    { destruct (timerArmed w); [| reflexivity].
      destruct (Harmed eq_refl) as (H0 & _). lia. }
    destruct (download resp); injection Hstep as <-; simpl.
    + rewrite Hoff. repeat split; try discriminate; try assumption; try lia.
    + repeat split; try discriminate; lia.
  - injection Hstep as <-. simpl.
    repeat split; try assumption; try lia; now apply Harmed.
Qed.

Lemma invariant_run (evs : list event) (w w' : watcher) :
  invariant w -> run w evs = Some w' -> invariant w'.
Proof.
  revert w. induction evs as [| e evs IH]; intros w Hinv Hrun; simpl in Hrun.
  - now injection Hrun as <-.
  - destruct (step w e) as [w1 |] eqn:Hstep; [| discriminate].
    apply (IH w1); [| assumption]. now apply invariant_step with w e.
Qed.

Lemma invariant_onSuccess : invariant onSuccess.
Proof. simpl. repeat split; lia. Qed.

(** X22.  In every state the watcher reaches, whatever other exports of
    the page do to the exporting flag in between: while the timer of this
    export is armed, none of its callbacks has called the download, raised
    the alert or logged an error. *)
Theorem armed_timer_means_nothing_happened (evs : list event) (w : watcher) :
  run onSuccess evs = Some w ->
  timerArmed w = true ->
  downloadCalls w = 0 /\ filesSaved w = 0 /\ downloading w = 0 /\
  alerts w = [] /\ consoleErrors w = [].
Proof.
  intros Hrun Ha.
  destruct (invariant_run evs onSuccess w invariant_onSuccess Hrun)
    as (Harmed & Hfiles & _).
  destruct (Harmed Ha) as (H0 & H1 & H2).
  repeat split; try assumption; lia.
Qed.

(** X23.  In every state the watcher reaches, the files saved and the
    downloads under way together do not exceed the calls of the download,
    and every call of the download and every alert goes back to a status
    request of its own that has been answered. *)
Theorem downloads_are_accounted_for (evs : list event) (w : watcher) :
  run onSuccess evs = Some w ->
  filesSaved w + downloading w <= downloadCalls w /\
  downloadCalls w + length (alerts w) + length (inFlight w) <= ticks w.
Proof.
  intros Hrun.
  destruct (invariant_run evs onSuccess w invariant_onSuccess Hrun)
    as (_ & Hfiles & Hcalls).
  split; assumption.
Qed.

(** X24.  A status read that reports the job [FAILED] ends the watch: the
    timer is cleared, the exporting flag reset, the alert raised once and
    nothing downloaded or logged; whatever happens afterwards, the timer
    stays cleared and no further status request is issued. *)
Theorem failed_job_is_terminal
    (w : watcher) (r : nat) (resp : @FetchResult Number)
    (job : gmap string (json Number)) :
  r ∈ inFlight w ->
  getStatus resp = Return (Data (Some (JObject job))) ->
  job !! "status" = Some (JString "FAILED") ->
  exists w' : watcher,
    step w (StatusResponse r resp) = Some w' /\
    timerArmed w' = false /\
    isExporting w' = false /\
    alerts w' = (alerts w ++ ["Export failed. Please try again."])%list /\
    consoleErrors w' = consoleErrors w /\
    downloadCalls w' = downloadCalls w /\
    forall (evs : list event) (w'' : watcher),
      run w' evs = Some w'' ->
      timerArmed w'' = false /\ ticks w'' = ticks w.
Proof.
  intros Hin Hst Hjob. eexists. split.
  { simpl. rewrite bool_decide_eq_true_2 by assumption. rewrite Hst.
    simpl. rewrite Hjob. simpl. reflexivity. }
  repeat (split; [reflexivity |]).
  intros evs w'' Hrun.
  now apply ExportWatchFacts.run_timer_off in Hrun.
Qed.

(** X25.  A status read whose job has any status but [COMPLETED] and
    [FAILED] (an unknown string, none at all, something that is no string)
    only takes the request off the pending ones: the timer stays as it is
    and the watcher goes on polling. *)
Theorem other_status_keeps_polling
    (w : watcher) (r : nat) (resp : @FetchResult Number)
    (job : gmap string (json Number)) :
  r ∈ inFlight w ->
  getStatus resp = Return (Data (Some (JObject job))) ->
  job !! "status" <> Some (JString "COMPLETED") ->
  job !! "status" <> Some (JString "FAILED") ->
  step w (StatusResponse r resp) = Some (set_inFlight (remove r (inFlight w)) w).
Proof.
  intros Hin Hst Hc Hf. simpl.
  rewrite bool_decide_eq_true_2 by assumption. rewrite Hst. simpl.
  destruct (job !! "status") as [[| b | n | s | items | props] |]; try reflexivity.
  destruct (String.eqb_spec s "COMPLETED") as [-> | _]; [contradiction |].
  destruct (String.eqb_spec s "FAILED") as [-> | _]; [contradiction |].
  reflexivity.
Qed.

(** X26.  A status read that reports the job [COMPLETED] clears the timer,
    resets the exporting flag and calls the download once, raising no alert:
    with a token the download request goes out, without one the call throws
    "Not authenticated", which is logged, and no request goes out. *)
Theorem completed_job_calls_download
    (w : watcher) (r : nat) (resp : @FetchResult Number)
    (job : gmap string (json Number)) :
  r ∈ inFlight w ->
  getStatus resp = Return (Data (Some (JObject job))) ->
  job !! "status" = Some (JString "COMPLETED") ->
  exists w' : watcher,
    step w (StatusResponse r resp) = Some w' /\
    timerArmed w' = false /\
    isExporting w' = false /\
    downloadCalls w' = S (downloadCalls w) /\
    alerts w' = alerts w /\
    filesSaved w' = filesSaved w /\
    if token_truthy (getAuthToken localStorage)
    then downloading w' = S (downloading w) /\ consoleErrors w' = consoleErrors w
    else downloading w' = downloading w /\
         consoleErrors w' = (consoleErrors w ++ [Error "Not authenticated"])%list.
Proof.
  intros Hin Hst Hjob. eexists. split.
  { simpl. rewrite bool_decide_eq_true_2 by assumption. rewrite Hst.
    simpl. rewrite Hjob. simpl. reflexivity. }
  unfold ExportWatch.call_download. simpl.
  destruct (token_truthy (getAuthToken localStorage)); simpl; repeat split.
Qed.

(** X27.  A download that throws (network failure, non-success status) is
    written to the console and nothing else: no file is saved, no alert
    raised, no retry started, and the watcher is stopped. *)
Theorem failed_download_is_logged_only
    (w : watcher) (n : nat) (resp : @FetchResult Number) (error : exn) :
  downloading w = S n ->
  download resp = Throw error ->
  exists w' : watcher,
    step w (DownloadResponse resp) = Some w' /\
    consoleErrors w' = (consoleErrors w ++ [error])%list /\
    filesSaved w' = filesSaved w /\
    alerts w' = alerts w /\
    downloadCalls w' = downloadCalls w /\
    downloading w' = n /\
    ticks w' = ticks w /\
    timerArmed w' = false /\
    isExporting w' = false.
Proof.
  intros Hd Hthrow. eexists. split.
  { simpl. rewrite Hd, Hthrow. reflexivity. }
  repeat split.
Qed.

(** X28.  The whole export when every answer comes in time: [n] polls
    answered [PROCESSING], one answered [COMPLETED], the download answered
    with the file.  Exactly one download is called and one file saved, the
    timer is cleared, the flag reset, nothing is pending, alerted or
    logged. *)
Theorem export_in_sequence_saves_one_file
    (n : nat) (file : @Response Number) (token : string) :
  localStorage !! "token" = Some token ->
  token <> "" ->
  ok file = true ->
  exists w : watcher,
    run onSuccess
        (Samples.poll_rounds (Responded (Samples.job_status "PROCESSING")) 0 n
           ++ [Tick;
               StatusResponse n (Responded (Samples.job_status "COMPLETED"));
               DownloadResponse (Responded file)])
    = Some w /\
    ticks w = S n /\
    downloadCalls w = 1 /\ filesSaved w = 1 /\
    timerArmed w = false /\ isExporting w = false /\
    inFlight w = [] /\ downloading w = 0 /\
    alerts w = [] /\ consoleErrors w = [].
Proof.
  intros Hls Hne Hok.
  assert (Htoken : token_truthy (getAuthToken localStorage) = true).
  { unfold getAuthToken. rewrite Hls. simpl.
    now destruct (String.eqb_spec token ""). }
  destruct (ExportWatchFacts.poll_rounds_from number_is_zero number_to_string
              localStorage exportId "PROCESSING" n onSuccess
              (or_intror eq_refl) eq_refl eq_refl)
    as (w & Hrun & Ht & Ha & Hi & He & Hd & Hc & Hf & Hal & Hce).
  simpl in Ht, Hrun. subst n.
  rewrite ExportWatchFacts.run_app, Hrun. cbn [mbind option_bind].
  change [Tick; ?a; ?b] with ([Tick; a] ++ [b])%list.
  rewrite ExportWatchFacts.run_app, ExportWatchFacts.answered_round,
    ExportWatchFacts.getStatus_job by assumption.
  cbn [mbind option_bind].
  unfold ExportWatch.on_status, ExportWatch.call_download. simpl.
  rewrite Htoken. simpl. rewrite Hd. 
  unfold Api.download, getAuthToken. rewrite Hls.
  destruct (String.eqb_spec token "") as [? | _]; [contradiction |].
  simpl. rewrite Hok. simpl.
  eexists. split; [reflexivity |]. simpl.
  rewrite Hc, Hf, Hal, Hce. repeat split.
Qed.
End Watch.

Section Runs.
(** The sample session: a token is stored and the export is [e1]. *)
Local Abbreviation run := (run Samples.is_zero Samples.show Samples.session "e1").
Local Abbreviation step := (step Samples.is_zero Samples.show Samples.session "e1").

(** X22 at a sample: another export writes the flag while the first poll
    of this one is under way. *)
Lemma armed_timer_means_nothing_happened_witness :
  exists w : watcher,
    run onSuccess [Tick; OtherExport false; Tick;
                   StatusResponse 0 (Responded (Samples.job_status "PROCESSING"))]
    = Some w /\
    timerArmed w = true /\
    downloadCalls w = 0 /\ alerts w = [] /\ consoleErrors w = [].
Proof.
  eexists. split; [reflexivity |]. split; [reflexivity |].
  destruct (armed_timer_means_nothing_happened Samples.is_zero Samples.show
              Samples.session "e1"
              [Tick; OtherExport false; Tick;
               StatusResponse 0 (Responded (Samples.job_status "PROCESSING"))]
              _ eq_refl eq_refl) as (H0 & _ & _ & H1 & H2).
  repeat split; assumption.
Defined.

(** X23 at a sample: two overlapping polls, both answered [COMPLETED]. *)
Lemma downloads_are_accounted_for_witness :
  exists w : watcher,
    run onSuccess [Tick; Tick;
                   StatusResponse 0 (Responded (Samples.job_status "COMPLETED"));
                   StatusResponse 1 (Responded (Samples.job_status "COMPLETED"))]
    = Some w /\
    downloadCalls w + length (alerts w) + length (inFlight w) <= ticks w.
Proof.
  eexists. split; [reflexivity |].
  eapply (downloads_are_accounted_for Samples.is_zero Samples.show
            Samples.session "e1"
            [Tick; Tick;
             StatusResponse 0 (Responded (Samples.job_status "COMPLETED"));
             StatusResponse 1 (Responded (Samples.job_status "COMPLETED"))]).
  reflexivity.
Defined.

(** X24 at a sample: the first poll is answered [FAILED]. *)
Lemma failed_job_is_terminal_witness :
  exists w' : watcher,
    step (tick onSuccess)
         (StatusResponse 0 (Responded (Samples.job_status "FAILED"))) = Some w' /\
    timerArmed w' = false /\
    alerts w' = ["Export failed. Please try again."].
Proof.
  destruct (failed_job_is_terminal Samples.is_zero Samples.show Samples.session
              "e1" (tick onSuccess) 0 (Responded (Samples.job_status "FAILED"))
              {[ "id" := JString "e1"; "status" := JString "FAILED" ]})
    as (w' & Hstep & Ha & _ & Hal & _).
  - simpl. apply list_elem_of_here.
  - reflexivity.
  - reflexivity.
  - exists w'. repeat split; assumption.
Defined.

(** X25 at a sample: a status the client does not know. *)
Lemma other_status_keeps_polling_witness :
  step (tick onSuccess)
       (StatusResponse 0 (Responded (Samples.job_status "CANCELLED")))
  = Some (set_inFlight [] (tick onSuccess)).
Proof.
  apply (other_status_keeps_polling Samples.is_zero Samples.show Samples.session
           "e1" (tick onSuccess) 0 (Responded (Samples.job_status "CANCELLED"))
           {[ "id" := JString "e1"; "status" := JString "CANCELLED" ]}).
  - simpl. apply list_elem_of_here.
  - reflexivity.
  - vm_compute. discriminate.
  - vm_compute. discriminate.
Defined.

(** X26 at a sample: the first poll is answered [COMPLETED]. *)
Lemma completed_job_calls_download_witness :
  exists w' : watcher,
    step (tick onSuccess)
         (StatusResponse 0 (Responded (Samples.job_status "COMPLETED"))) = Some w' /\
    timerArmed w' = false /\
    downloadCalls w' = 1.
Proof.
  destruct (completed_job_calls_download Samples.is_zero Samples.show
              Samples.session "e1" (tick onSuccess) 0
              (Responded (Samples.job_status "COMPLETED"))
              {[ "id" := JString "e1"; "status" := JString "COMPLETED" ]})
    as (w' & Hstep & Ha & _ & Hc & _).
  - simpl. apply list_elem_of_here.
  - reflexivity.
  - reflexivity.
  - exists w'. repeat split; assumption.
Defined.

(** X27 at a sample: the download is answered with status 500. *)
Lemma failed_download_is_logged_only_witness :
  exists w' : watcher,
    step (set_downloading 1 onSuccess)
         (DownloadResponse (Responded Samples.server_error)) = Some w' /\
    consoleErrors w' = [Error "Export file missing"] /\
    filesSaved w' = 0.
Proof.
  destruct (failed_download_is_logged_only Samples.is_zero Samples.show
              Samples.session "e1" (set_downloading 1 onSuccess) 0
              (Responded Samples.server_error) (Error "Export file missing"))
    as (w' & Hstep & Hce & Hf & _); [reflexivity | reflexivity |].
  exists w'. repeat split; assumption.
Defined.

(** X28 at a sample: two polls answered [PROCESSING], the third
    [COMPLETED]. *)
Lemma export_in_sequence_saves_one_file_witness :
  exists w : watcher,
    run onSuccess
        [Tick; StatusResponse 0 (Responded (Samples.job_status "PROCESSING"));
         Tick; StatusResponse 1 (Responded (Samples.job_status "PROCESSING"));
         Tick; StatusResponse 2 (Responded (Samples.job_status "COMPLETED"));
         DownloadResponse (Responded Samples.file)]
    = Some w /\
    downloadCalls w = 1 /\ filesSaved w = 1 /\ timerArmed w = false.
Proof.
  destruct (export_in_sequence_saves_one_file Samples.is_zero Samples.show
              Samples.session "e1" 2 Samples.file "jwt")
    as (w & Hrun & _ & Hc & Hf & Ha & _);
    [reflexivity | discriminate | reflexivity |].
  exists w. repeat split; assumption.
Defined.
End Runs.

End WatcherFacts.
